(** * T.LY Go client: a shallow embedding of [client.go] and its contract

    The package is one request dispatcher, [doRequest], and eighteen public
    operations that call it.  Everything the dispatcher touches outside the
    package (the HTTP transport, [http.NewRequest]'s validation, the JSON
    codec, the iteration order of a Go map) is kept as a parameter of the
    development, so the general theorems hold for every transport and every
    codec.  A concrete model of the fragment of [encoding/json] used by the
    examples is given in [GoJSON]. *)

From Stdlib Require Import ZArith Ascii String List Lia.
From stdpp Require Import base option list gmap strings pretty sorting.

Set Warnings "-register-all".

Local Open Scope string_scope.
Local Open Scope Z_scope.

(** ** Go values shared by all packages *)

(** A Go [error] value; only its message is observable here.  [None] in an
    [option error] is Go's nil error. *)
Record error : Type := errors_New { Error : string }.

(** A Go [(value, error)] pair in which exactly one side is meaningful. *)
Inductive result (A : Type) : Type :=
| Ok (a : A)
| Err (e : error).
Arguments Ok {A} a.
Arguments Err {A} e.

(** The double quote character, and a string wrapped in double quotes. *)
Definition dq : string := String (ascii_of_nat 34) EmptyString.
Definition quoted (s : string) : string := dq +:+ s +:+ dq.

(** ** Package fmt *)
Module fmt.

(** [fmt.Sprintf("%d", n)] on a Go [int]. *)
Definition Sprintf_d (n : Z) : string := pretty n.

(** [fmt.Errorf(format, ...)] with the message already formatted. *)
Definition Errorf (msg : string) : error := errors_New msg.

End fmt.

(** ** Package io/ioutil *)
Module ioutil.

(** A response body as an [io.Reader] that is read to its end: the bytes
    it delivers, and the error (if any) with which the reading stops
    instead of a clean end of file. *)
Record Reader : Type := mkReader {
  delivered : string;
  readErr : option error
}.

(** [ioutil.ReadAll]: reads until an error or end of file and returns the
    data read so far together with that error. *)
Definition ReadAll (r : Reader) : string * option error :=
  (delivered r, readErr r).

End ioutil.

(** ** Package net/http *)
Module http.

(** [http.Header] is [map[string][]string]. *)
Abbreviation Header := (gmap string (list string)).

Definition isLower (c : ascii) : bool :=
  let n := nat_of_ascii c in (97 <=? n)%nat && (n <=? 122)%nat.
Definition isUpper (c : ascii) : bool :=
  let n := nat_of_ascii c in (65 <=? n)%nat && (n <=? 90)%nat.
Definition isDigit (c : ascii) : bool :=
  let n := nat_of_ascii c in (48 <=? n)%nat && (n <=? 57)%nat.

(** The bytes allowed in a header field name (RFC 7230 token). *)
Definition validHeaderFieldByte (c : ascii) : bool :=
  isLower c || isUpper c || isDigit c ||
  existsb (Ascii.eqb c) (list_ascii_of_string "!#$%&'*+-.^_`|~").

Fixpoint canonicalize (upper : bool) (s : string) : string :=
  match s with
  | EmptyString => EmptyString
  | String c rest =>
      let c' :=
        if upper && isLower c then ascii_of_nat (nat_of_ascii c - 32)
        else if negb upper && isUpper c then ascii_of_nat (nat_of_ascii c + 32)
        else c in
      String c' (canonicalize (Ascii.eqb c' "-") rest)
  end.

(** [textproto.CanonicalMIMEHeaderKey]: the first letter and every letter
    after a hyphen in upper case, the rest in lower case; a key with a
    byte that is not a token byte is returned unchanged. *)
Definition CanonicalMIMEHeaderKey (s : string) : string :=
  if forallb validHeaderFieldByte (list_ascii_of_string s)
  then canonicalize true s else s.

(** [Header.Set]: replaces whatever values the canonical key had. *)
Definition Header_Set (key value : string) (h : Header) : Header :=
  <[CanonicalMIMEHeaderKey key := [value]]> h.

Record Request : Type := mkRequest {
  Method : string;
  URL : string;
  Hdr : Header;
  Body : string
}.

Definition Request_setHeader (key value : string) (r : Request) : Request :=
  {| Method := Method r; URL := URL r;
     Hdr := Header_Set key value (Hdr r); Body := Body r |}.

Record Response : Type := mkResponse {
  StatusCode : Z;
  RespBody : ioutil.Reader
}.

(** What a transport answers to a request, given the requests it has been
    handed before (the remote service may keep state). *)
Definition RoundTripper : Type := list Request → Request → result Response.

(** [http.Client], the transport handle. *)
Record Client : Type := mkClient { Transport : RoundTripper }.

(** The method [Do] of [http.Client], without its effect on the log of
    requests. *)
Definition Client_Do (h : Client) (history : list Request) (req : Request)
  : result Response := Transport h history req.

End http.

(** ** The runtime the package runs in *)

(** The parts of the Go runtime and standard library whose behaviour the
    package does not determine. *)
Class Runtime : Type := {
  (** the transport behind a zero-valued [http.Client] *)
  DefaultTransport : http.RoundTripper;
  (** the validation of the method and of the URL by [http.NewRequest]:
      [None] when both are accepted *)
  NewRequest_invalid : string → string → option error;
  (** the order in which a [range] loop visits the entries of a map *)
  rangeOrder : gmap string string → list (string * string);
  rangeOrder_perm : ∀ m, rangeOrder m ≡ₚ map_to_list m
}.

(** [http.NewRequest]: a request with the given method, URL and body and an
    empty header, or the validation error.  An empty method means GET. *)
Definition http_NewRequest `{Runtime} (method url body : string)
  : result http.Request :=
  match NewRequest_invalid method url with
  | Some e => Err e
  | None =>
      Ok {| http.Method := if String.eqb method "" then "GET" else method;
            http.URL := url; http.Hdr := ∅; http.Body := body |}
  end.

(** ** Package encoding/json, as seen by the dispatcher *)

(** [json.Marshal] at the dynamic type [B] of the value passed as
    [interface{}]. *)
Class Marshaler (B : Type) : Type :=
  json_Marshal : B → result string.

(** [json.NewDecoder(r).Decode(&slot)] at the type [R] of the slot: the
    content of the slot after the call, and the error. *)
Class Unmarshaler (R : Type) : Type :=
  json_Decode : ioutil.Reader → R → R * option error.

(** ** Package tly: the data model *)

(** A Go slice; [None] is the nil slice. *)
Abbreviation slice T := (option (list T)).

(** What an [interface{}] field holds once JSON has been decoded into it, a
    number being kept as its literal. *)
Inductive any : Type :=
| any_nil
| any_bool (b : bool)
| any_number (literal : string)
| any_string (s : string)
| any_slice (elems : list any)
| any_map (entries : list (string * any)).

(** The credential context.  The field holding the transport handle is
    called [Client] in the source. *)
Record Client : Type := mkClient {
  APIKey : string;
  BaseURL : string;
  Client' : http.Client
}.

Record Pixel : Type := mkPixel {
  Pixel_ID : Z;
  Pixel_Name : string;
  Pixel_PixelID : string;
  Pixel_PixelType : string;
  Pixel_CreatedAt : string;
  Pixel_UpdatedAt : string
}.

Record PixelCreateRequest : Type := mkPixelCreateRequest {
  PixelCreateRequest_Name : string;
  PixelCreateRequest_PixelID : string;
  PixelCreateRequest_PixelType : string
}.

Record PixelUpdateRequest : Type := mkPixelUpdateRequest {
  PixelUpdateRequest_ID : Z;
  PixelUpdateRequest_Name : string;
  PixelUpdateRequest_PixelID : string;
  PixelUpdateRequest_PixelType : string
}.

Record ShortLink : Type := mkShortLink {
  ShortLink_ShortURL : string;
  ShortLink_Description : string;
  ShortLink_LongURL : string;
  ShortLink_Domain : string;
  ShortLink_ShortID : string;
  ShortLink_ExpireAtViews : any;
  ShortLink_ExpireAtDatetime : any;
  ShortLink_PublicStats : bool;
  ShortLink_CreatedAt : string;
  ShortLink_UpdatedAt : string;
  ShortLink_Meta : any
}.

(** A pointer field ([*string], [*int], [*bool]) is an [option]: [None] is
    the nil pointer, which [omitempty] leaves out of the body. *)
Record ShortLinkCreateRequest : Type := mkShortLinkCreateRequest {
  ShortLinkCreateRequest_LongURL : string;
  ShortLinkCreateRequest_ShortID : option string;
  ShortLinkCreateRequest_Domain : string;
  ShortLinkCreateRequest_ExpireAtDatetime : option string;
  ShortLinkCreateRequest_ExpireAtViews : option Z;
  ShortLinkCreateRequest_Description : option string;
  ShortLinkCreateRequest_PublicStats : option bool;
  ShortLinkCreateRequest_Password : option string;
  ShortLinkCreateRequest_Tags : slice Z;
  ShortLinkCreateRequest_Pixels : slice Z;
  ShortLinkCreateRequest_Meta : any
}.

Record ShortLinkUpdateRequest : Type := mkShortLinkUpdateRequest {
  ShortLinkUpdateRequest_ShortURL : string;
  ShortLinkUpdateRequest_ShortID : option string;
  ShortLinkUpdateRequest_LongURL : string;
  ShortLinkUpdateRequest_ExpireAtDatetime : option string;
  ShortLinkUpdateRequest_ExpireAtViews : option Z;
  ShortLinkUpdateRequest_Description : option string;
  ShortLinkUpdateRequest_PublicStats : option bool;
  ShortLinkUpdateRequest_Password : option string;
  ShortLinkUpdateRequest_Tags : slice Z;
  ShortLinkUpdateRequest_Pixels : slice Z;
  ShortLinkUpdateRequest_Meta : any
}.

Record ExpandRequest : Type := mkExpandRequest {
  ExpandRequest_ShortURL : string;
  ExpandRequest_Password : option string
}.

Record ExpandResponse : Type := mkExpandResponse {
  ExpandResponse_LongURL : string;
  ExpandResponse_Expired : bool
}.

Record BulkShortenRequest : Type := mkBulkShortenRequest {
  BulkShortenRequest_Domain : string;
  BulkShortenRequest_Links : slice string;
  BulkShortenRequest_Tags : slice Z;
  BulkShortenRequest_Pixels : slice Z
}.

Record Stats : Type := mkStats {
  Stats_Clicks : Z;
  Stats_UniqueClicks : Z;
  Stats_Browsers : slice any;
  Stats_Countries : slice any;
  Stats_Referrers : slice any;
  Stats_Platforms : slice any;
  Stats_DailyClicks : slice any;
  Stats_Data : option (list (string * any))
}.

Record Tag : Type := mkTag {
  Tag_ID : Z;
  Tag_Tag : string;
  Tag_CreatedAt : string;
  Tag_UpdatedAt : string
}.

(** The zero values of [var x T]. *)
Definition Pixel_zero : Pixel := mkPixel 0 "" "" "" "" "".
Definition ShortLink_zero : ShortLink :=
  mkShortLink "" "" "" "" "" any_nil any_nil false "" "" any_nil.
Definition ExpandResponse_zero : ExpandResponse := mkExpandResponse "" false.
Definition Stats_zero : Stats := mkStats 0 0 None None None None None None.
Definition Tag_zero : Tag := mkTag 0 "" "" "" .

(** ** Package tly: state and effects *)

(** The methods have the receiver [c *Client], so the credential context is
    an object they could write to; [sent] is the log of the requests handed
    to the transport, oldest first. *)
Record State : Type := mkState {
  self : Client;
  sent : list http.Request
}.

Definition M (A : Type) : Type := State → A * State.

#[global] Instance M_ret : MRet M := λ A a s, (a, s).
#[global] Instance M_bind : MBind M :=
  λ A B f m s, let '(a, s') := m s in f a s'.

(** Reading the receiver. *)
Definition getSelf : M Client := λ s, (self s, s).

(** [h.Do(req)]: one send through the transport. *)
Definition Do (h : http.Client) (req : http.Request) : M (result http.Response) :=
  λ s, (http.Client_Do h (sent s) req,
        {| self := self s; sent := sent s ++ [req] |}).

(** ** The public operations as data *)

(** A call of one of the eighteen public operations with its arguments. *)
Inductive Call : Type :=
| CallCreatePixel (reqData : PixelCreateRequest)
| CallListPixels
| CallGetPixel (id : Z)
| CallUpdatePixel (reqData : PixelUpdateRequest)
| CallDeletePixel (id : Z)
| CallCreateShortLink (reqData : ShortLinkCreateRequest)
| CallGetShortLink (shortURL : string)
| CallUpdateShortLink (reqData : ShortLinkUpdateRequest)
| CallDeleteShortLink (shortURL : string)
| CallExpandShortLink (reqData : ExpandRequest)
| CallListShortLinks (queryParams : gmap string string)
| CallBulkShortenLinks (reqData : BulkShortenRequest)
| CallGetStats (shortURL : string)
| CallListTags
| CallCreateTag (tagValue : string)
| CallGetTag (id : Z)
| CallUpdateTag (id : Z) (tagValue : string)
| CallDeleteTag (id : Z).

(** What an operation returns besides its error. *)
Inductive Returned : Type :=
| NoValue
| PixelPtr (p : option Pixel)
| PixelSlice (ps : slice Pixel)
| ShortLinkPtr (l : option ShortLink)
| ExpandResponsePtr (r : option ExpandResponse)
| Text (s : string)
| StatsPtr (st : option Stats)
| TagPtr (t : option Tag)
| TagSlice (ts : slice Tag).

(** The operations that return a pointer to a record. *)
Definition returnsPointer (call : Call) : bool :=
  match call with
  | CallCreatePixel _ | CallGetPixel _ | CallUpdatePixel _
  | CallCreateShortLink _ | CallGetShortLink _ | CallUpdateShortLink _
  | CallExpandShortLink _ | CallGetStats _
  | CallCreateTag _ | CallGetTag _ | CallUpdateTag _ _ => true
  | _ => false
  end.

(** A returned pointer that is nil. *)
Definition isNilPointer (v : Returned) : bool :=
  match v with
  | PixelPtr None | ShortLinkPtr None | ExpandResponsePtr None
  | StatsPtr None | TagPtr None => true
  | _ => false
  end.

(** A returned pointer that is not nil. *)
Definition isPointer (v : Returned) : bool :=
  match v with
  | PixelPtr (Some _) | ShortLinkPtr (Some _) | ExpandResponsePtr (Some _)
  | StatsPtr (Some _) | TagPtr (Some _) => true
  | _ => false
  end.

(** No result at all: a nil pointer, a nil slice, the empty string, or an
    operation that returns only an error. *)
Definition noResult (v : Returned) : bool :=
  match v with
  | NoValue | PixelPtr None | PixelSlice None | ShortLinkPtr None
  | ExpandResponsePtr None | Text "" | StatsPtr None | TagPtr None
  | TagSlice None => true
  | _ => false
  end.

(** ** Package tly: the dispatcher and the operations *)

(** The type of a nil [body] or [result]: no value of it is ever built. *)
Definition Nil : Type := Empty_set.
#[global] Instance Nil_Marshaler : Marshaler Nil := λ b, match b with end.
#[global] Instance Nil_Unmarshaler : Unmarshaler Nil := λ _ r, match r with end.

Section tly.
Context `{Runtime}.

(** [NewClient]: the fixed base address and a fresh zero-valued
    [http.Client]. *)
Definition NewClient (apiKey : string) : Client :=
  {| APIKey := apiKey;
     BaseURL := "https://api.t.ly";
     Client' := {| http.Transport := DefaultTransport |} |}.

(** [doRequest].  [body] and [result] are [None] for a nil interface;
    [result] otherwise holds the content of the slot it points to.  The
    value returned is the content of the slot after the call (the code
    writes it through the pointer) and the error.  Closing the response
    body has no effect that this model records. *)
Definition doRequest {B R : Type} `{Marshaler B} `{Unmarshaler R}
    (method path query : string) (body : option B) (result : option R)
  : M (option R * option error) :=
  c ← getSelf;
  let url := BaseURL c +:+ path in
  let url := if negb (String.eqb query "") then url +:+ "?" +:+ query else url in
  match (match body with
         | Some b => json_Marshal b
         | None => Ok ""
         end) with
  | Err err => mret (result, Some err)
  | Ok buf =>
      match http_NewRequest method url buf with
      | Err err => mret (result, Some err)
      | Ok req =>
          let req := http.Request_setHeader "Authorization" ("Bearer " +:+ APIKey c) req in
          let req := http.Request_setHeader "Content-Type" "application/json" req in
          let req := http.Request_setHeader "Accept" "application/json" req in
          r ← Do (Client' c) req;
          match r with
          | Err err => mret (result, Some err)
          | Ok resp =>
              if ((http.StatusCode resp <? 200) || (http.StatusCode resp >=? 300))%Z then
                let '(data, _) := ioutil.ReadAll (http.RespBody resp) in
                mret (result, Some (fmt.Errorf ("API error: " +:+ data)))
              else
                match result with
                | Some slot =>
                    let '(v, err) := json_Decode (http.RespBody resp) slot in
                    mret (Some v, err)
                | None => mret (None, None)
                end
          end
      end
  end.

(** The codecs of the payload and result types of the operations. *)
Context `{Marshaler PixelCreateRequest} `{Marshaler PixelUpdateRequest}
        `{Marshaler ShortLinkCreateRequest} `{Marshaler ShortLinkUpdateRequest}
        `{Marshaler ExpandRequest} `{Marshaler BulkShortenRequest}
        `{Marshaler (gmap string string)}.
Context `{Unmarshaler Pixel} `{Unmarshaler (slice Pixel)}
        `{Unmarshaler ShortLink} `{Unmarshaler ExpandResponse}
        `{Unmarshaler string} `{Unmarshaler Stats}
        `{Unmarshaler Tag} `{Unmarshaler (slice Tag)}.

(** *** Pixel management *)

Definition CreatePixel (reqData : PixelCreateRequest) : M (option Pixel * option error) :=
  '(slot, err) ← doRequest "POST" "/api/v1/link/pixel" "" (Some reqData) (Some Pixel_zero);
  let pixel := default Pixel_zero slot in
  match err with
  | Some err => mret (None, Some err)
  | None => mret (Some pixel, None)
  end.

Definition ListPixels : M (slice Pixel * option error) :=
  '(slot, err) ← doRequest (B:=Nil) "GET" "/api/v1/link/pixel" "" None
                   (Some (None : slice Pixel));
  let pixels := default None slot in
  match err with
  | Some err => mret (None, Some err)
  | None => mret (pixels, None)
  end.

Definition GetPixel (id : Z) : M (option Pixel * option error) :=
  let path := "/api/v1/link/pixel/" +:+ fmt.Sprintf_d id in
  '(slot, err) ← doRequest (B:=Nil) "GET" path "" None (Some Pixel_zero);
  let pixel := default Pixel_zero slot in
  match err with
  | Some err => mret (None, Some err)
  | None => mret (Some pixel, None)
  end.

Definition UpdatePixel (reqData : PixelUpdateRequest) : M (option Pixel * option error) :=
  let path := "/api/v1/link/pixel/" +:+ fmt.Sprintf_d (PixelUpdateRequest_ID reqData) in
  '(slot, err) ← doRequest "PUT" path "" (Some reqData) (Some Pixel_zero);
  let pixel := default Pixel_zero slot in
  match err with
  | Some err => mret (None, Some err)
  | None => mret (Some pixel, None)
  end.

Definition DeletePixel (id : Z) : M (option error) :=
  let path := "/api/v1/link/pixel/" +:+ fmt.Sprintf_d id in
  '(_, err) ← doRequest (B:=Nil) (R:=Nil) "DELETE" path "" None None;
  mret err.

(** *** Short link management *)

Definition CreateShortLink (reqData : ShortLinkCreateRequest)
  : M (option ShortLink * option error) :=
  '(slot, err) ← doRequest "POST" "/api/v1/link/shorten" "" (Some reqData) (Some ShortLink_zero);
  let link := default ShortLink_zero slot in
  match err with
  | Some err => mret (None, Some err)
  | None => mret (Some link, None)
  end.

Definition GetShortLink (shortURL : string) : M (option ShortLink * option error) :=
  let query := "short_url=" +:+ shortURL in
  '(slot, err) ← doRequest (B:=Nil) "GET" "/api/v1/link" query None (Some ShortLink_zero);
  let link := default ShortLink_zero slot in
  match err with
  | Some err => mret (None, Some err)
  | None => mret (Some link, None)
  end.

Definition UpdateShortLink (reqData : ShortLinkUpdateRequest)
  : M (option ShortLink * option error) :=
  '(slot, err) ← doRequest "PUT" "/api/v1/link" "" (Some reqData) (Some ShortLink_zero);
  let link := default ShortLink_zero slot in
  match err with
  | Some err => mret (None, Some err)
  | None => mret (Some link, None)
  end.

Definition DeleteShortLink (shortURL : string) : M (option error) :=
  let reqBody : gmap string string := {[ "short_url" := shortURL ]} in
  '(_, err) ← doRequest (R:=Nil) "DELETE" "/api/v1/link" "" (Some reqBody) None;
  mret err.

Definition ExpandShortLink (reqData : ExpandRequest)
  : M (option ExpandResponse * option error) :=
  '(slot, err) ← doRequest "POST" "/api/v1/link/expand" "" (Some reqData)
                   (Some ExpandResponse_zero);
  let resp := default ExpandResponse_zero slot in
  match err with
  | Some err => mret (None, Some err)
  | None => mret (Some resp, None)
  end.

(** The loop of [ListShortLinks] over the entries in the order [range]
    visits them: the accumulated query and the [first] flag. *)
Fixpoint joinParams (entries : list (string * string)) (query : string) (first : bool)
  : string :=
  match entries with
  | [] => query
  | (k, v) :: rest =>
      let query := if negb first then query +:+ "&" else query in
      let query := query +:+ (k +:+ "=" +:+ v) in
      joinParams rest query false
  end.

Definition ListShortLinks (queryParams : gmap string string) : M (string * option error) :=
  let query := joinParams (rangeOrder queryParams) "" true in
  '(slot, err) ← doRequest (B:=Nil) "GET" "/api/v1/link/list" query None (Some "");
  let result := default "" slot in
  match err with
  | Some err => mret ("", Some err)
  | None => mret (result, None)
  end.

Definition BulkShortenLinks (reqData : BulkShortenRequest) : M (string * option error) :=
  '(slot, err) ← doRequest "POST" "/api/v1/link/bulk" "" (Some reqData) (Some "");
  let result := default "" slot in
  match err with
  | Some err => mret ("", Some err)
  | None => mret (result, None)
  end.

(** *** Stats management *)

Definition GetStats (shortURL : string) : M (option Stats * option error) :=
  let query := "short_url=" +:+ shortURL in
  '(slot, err) ← doRequest (B:=Nil) "GET" "/api/v1/link/stats" query None (Some Stats_zero);
  let stats := default Stats_zero slot in
  match err with
  | Some err => mret (None, Some err)
  | None => mret (Some stats, None)
  end.

(** *** Tag management *)

Definition ListTags : M (slice Tag * option error) :=
  '(slot, err) ← doRequest (B:=Nil) "GET" "/api/v1/link/tag" "" None (Some (None : slice Tag));
  let tags := default None slot in
  match err with
  | Some err => mret (None, Some err)
  | None => mret (tags, None)
  end.

Definition CreateTag (tagValue : string) : M (option Tag * option error) :=
  let reqBody : gmap string string := {[ "tag" := tagValue ]} in
  '(slot, err) ← doRequest "POST" "/api/v1/link/tag" "" (Some reqBody) (Some Tag_zero);
  let tag := default Tag_zero slot in
  match err with
  | Some err => mret (None, Some err)
  | None => mret (Some tag, None)
  end.

Definition GetTag (id : Z) : M (option Tag * option error) :=
  let path := "/api/v1/link/tag/" +:+ fmt.Sprintf_d id in
  '(slot, err) ← doRequest (B:=Nil) "GET" path "" None (Some Tag_zero);
  let tag := default Tag_zero slot in
  match err with
  | Some err => mret (None, Some err)
  | None => mret (Some tag, None)
  end.

Definition UpdateTag (id : Z) (tagValue : string) : M (option Tag * option error) :=
  let path := "/api/v1/link/tag/" +:+ fmt.Sprintf_d id in
  let reqBody : gmap string string := {[ "tag" := tagValue ]} in
  '(slot, err) ← doRequest "PUT" path "" (Some reqBody) (Some Tag_zero);
  let tag := default Tag_zero slot in
  match err with
  | Some err => mret (None, Some err)
  | None => mret (Some tag, None)
  end.

Definition DeleteTag (id : Z) : M (option error) :=
  let path := "/api/v1/link/tag/" +:+ fmt.Sprintf_d id in
  '(_, err) ← doRequest (B:=Nil) (R:=Nil) "DELETE" path "" None None;
  mret err.

(** *** Running a call *)

Definition run (call : Call) : M (Returned * option error) :=
  match call with
  | CallCreatePixel reqData => '(v, err) ← CreatePixel reqData; mret (PixelPtr v, err)
  | CallListPixels => '(v, err) ← ListPixels; mret (PixelSlice v, err)
  | CallGetPixel id => '(v, err) ← GetPixel id; mret (PixelPtr v, err)
  | CallUpdatePixel reqData => '(v, err) ← UpdatePixel reqData; mret (PixelPtr v, err)
  | CallDeletePixel id => err ← DeletePixel id; mret (NoValue, err)
  | CallCreateShortLink reqData => '(v, err) ← CreateShortLink reqData; mret (ShortLinkPtr v, err)
  | CallGetShortLink shortURL => '(v, err) ← GetShortLink shortURL; mret (ShortLinkPtr v, err)
  | CallUpdateShortLink reqData => '(v, err) ← UpdateShortLink reqData; mret (ShortLinkPtr v, err)
  | CallDeleteShortLink shortURL => err ← DeleteShortLink shortURL; mret (NoValue, err)
  | CallExpandShortLink reqData =>
      '(v, err) ← ExpandShortLink reqData; mret (ExpandResponsePtr v, err)
  | CallListShortLinks queryParams => '(v, err) ← ListShortLinks queryParams; mret (Text v, err)
  | CallBulkShortenLinks reqData => '(v, err) ← BulkShortenLinks reqData; mret (Text v, err)
  | CallGetStats shortURL => '(v, err) ← GetStats shortURL; mret (StatsPtr v, err)
  | CallListTags => '(v, err) ← ListTags; mret (TagSlice v, err)
  | CallCreateTag tagValue => '(v, err) ← CreateTag tagValue; mret (TagPtr v, err)
  | CallGetTag id => '(v, err) ← GetTag id; mret (TagPtr v, err)
  | CallUpdateTag id tagValue => '(v, err) ← UpdateTag id tagValue; mret (TagPtr v, err)
  | CallDeleteTag id => err ← DeleteTag id; mret (NoValue, err)
  end.

(** The requests a computation hands to the transport when run from [s]. *)
Definition sentBy {A : Type} (m : M A) (s : State) : list http.Request :=
  drop (length (sent s)) (sent (m s).2).

End tly.

(** ** The contract of the dispatcher, restated from the specification *)

(** The header set every request is to carry: exactly three keys. *)
Definition contractHeader (token : string) : http.Header :=
  list_to_map [("Authorization", ["Bearer " +:+ token]);
               ("Content-Type", ["application/json"]);
               ("Accept", ["application/json"])].

(** The target URL: base address, path, and the query after a question mark
    when there is one. *)
Definition contractURL (base path query : string) : string :=
  if String.eqb query "" then base +:+ path else (base +:+ path) +:+ "?" +:+ query.

(** The status codes that count as success. *)
Definition success (status : Z) : Prop := 200 ≤ status < 300.

(** The body the dispatcher sends: the serialized payload, or nothing. *)
Definition payload {B : Type} `{Marshaler B} (body : option B) : result string :=
  match body with
  | Some b => json_Marshal b
  | None => Ok ""
  end.

#[global] Instance success_dec (status : Z) : Decision (success status).
Proof. unfold success. apply _. Defined.

(** The request the contract describes for a method, a URL, a token and a
    body. *)
Definition contractRequest (token method url buf : string) : http.Request :=
  {| http.Method := if String.eqb method "" then "GET" else method;
     http.URL := url;
     http.Hdr := contractHeader token;
     http.Body := buf |}.

(** The state after one more request has been handed to the transport. *)
Definition afterSend (s : State) (req : http.Request) : State :=
  {| self := self s; sent := sent s ++ [req] |}.

(** Running calls one after the other. *)
Fixpoint runAll `{Runtime}
    `{Marshaler PixelCreateRequest} `{Marshaler PixelUpdateRequest}
    `{Marshaler ShortLinkCreateRequest} `{Marshaler ShortLinkUpdateRequest}
    `{Marshaler ExpandRequest} `{Marshaler BulkShortenRequest}
    `{Marshaler (gmap string string)}
    `{Unmarshaler Pixel} `{Unmarshaler (slice Pixel)}
    `{Unmarshaler ShortLink} `{Unmarshaler ExpandResponse}
    `{Unmarshaler string} `{Unmarshaler Stats}
    `{Unmarshaler Tag} `{Unmarshaler (slice Tag)}
    (calls : list Call) (s : State) : State :=
  match calls with
  | [] => s
  | call :: rest => runAll rest (run call s).2
  end.

(** ** The operations tabulated

    What each public operation passes to the dispatcher, read off its body:
    the verb, the path, the query, the serialized payload, and what it makes
    of the dispatcher's answer. *)

Definition callVerb (call : Call) : string :=
  match call with
  | CallCreatePixel _ | CallCreateShortLink _ | CallExpandShortLink _
  | CallBulkShortenLinks _ | CallCreateTag _ => "POST"
  | CallListPixels | CallGetPixel _ | CallGetShortLink _ | CallListShortLinks _
  | CallGetStats _ | CallListTags | CallGetTag _ => "GET"
  | CallUpdatePixel _ | CallUpdateShortLink _ | CallUpdateTag _ _ => "PUT"
  | CallDeletePixel _ | CallDeleteShortLink _ | CallDeleteTag _ => "DELETE"
  end.

Definition callPath (call : Call) : string :=
  match call with
  | CallCreatePixel _ | CallListPixels => "/api/v1/link/pixel"
  | CallGetPixel id | CallDeletePixel id => "/api/v1/link/pixel/" +:+ fmt.Sprintf_d id
  | CallUpdatePixel reqData =>
      "/api/v1/link/pixel/" +:+ fmt.Sprintf_d (PixelUpdateRequest_ID reqData)
  | CallCreateShortLink _ => "/api/v1/link/shorten"
  | CallGetShortLink _ | CallUpdateShortLink _ | CallDeleteShortLink _ => "/api/v1/link"
  | CallExpandShortLink _ => "/api/v1/link/expand"
  | CallListShortLinks _ => "/api/v1/link/list"
  | CallBulkShortenLinks _ => "/api/v1/link/bulk"
  | CallGetStats _ => "/api/v1/link/stats"
  | CallListTags | CallCreateTag _ => "/api/v1/link/tag"
  | CallGetTag id | CallUpdateTag id _ | CallDeleteTag id =>
      "/api/v1/link/tag/" +:+ fmt.Sprintf_d id
  end.

Definition callQuery `{Runtime} (call : Call) : string :=
  match call with
  | CallGetShortLink shortURL | CallGetStats shortURL => "short_url=" +:+ shortURL
  | CallListShortLinks queryParams => joinParams (rangeOrder queryParams) "" true
  | _ => ""
  end.

Definition callPayload
    `{Marshaler PixelCreateRequest} `{Marshaler PixelUpdateRequest}
    `{Marshaler ShortLinkCreateRequest} `{Marshaler ShortLinkUpdateRequest}
    `{Marshaler ExpandRequest} `{Marshaler BulkShortenRequest}
    `{Marshaler (gmap string string)}
    (call : Call) : result string :=
  match call with
  | CallCreatePixel reqData => json_Marshal reqData
  | CallUpdatePixel reqData => json_Marshal reqData
  | CallCreateShortLink reqData => json_Marshal reqData
  | CallUpdateShortLink reqData => json_Marshal reqData
  | CallDeleteShortLink shortURL =>
      json_Marshal ({[ "short_url" := shortURL ]} : gmap string string)
  | CallExpandShortLink reqData => json_Marshal reqData
  | CallBulkShortenLinks reqData => json_Marshal reqData
  | CallCreateTag tagValue | CallUpdateTag _ tagValue =>
      json_Marshal ({[ "tag" := tagValue ]} : gmap string string)
  | _ => Ok ""
  end.

(** What a call returns beside an error that is not nil. *)
Definition callFailed (call : Call) : Returned :=
  match call with
  | CallCreatePixel _ | CallGetPixel _ | CallUpdatePixel _ => PixelPtr None
  | CallListPixels => PixelSlice None
  | CallCreateShortLink _ | CallGetShortLink _ | CallUpdateShortLink _ =>
      ShortLinkPtr None
  | CallExpandShortLink _ => ExpandResponsePtr None
  | CallListShortLinks _ | CallBulkShortenLinks _ => Text ""
  | CallGetStats _ => StatsPtr None
  | CallListTags => TagSlice None
  | CallCreateTag _ | CallGetTag _ | CallUpdateTag _ _ => TagPtr None
  | CallDeletePixel _ | CallDeleteShortLink _ | CallDeleteTag _ => NoValue
  end.

(** What an operation makes of the slot and the error the decoder leaves. *)
Definition pointerResult {T : Type} (wrap : option T → Returned)
    (d : T * option error) : Returned * option error :=
  match d with
  | (v, None) => (wrap (Some v), None)
  | (_, Some e) => (wrap None, Some e)
  end.

Definition sliceResult {T : Type} (wrap : slice T → Returned)
    (d : slice T * option error) : Returned * option error :=
  match d with
  | (v, None) => (wrap v, None)
  | (_, Some e) => (wrap None, Some e)
  end.

Definition textResult (d : string * option error) : Returned * option error :=
  match d with
  | (v, None) => (Text v, None)
  | (_, Some e) => (Text "", Some e)
  end.

(** What a call returns for the body of a 2xx response: the body decoded
    into a zero value of the result type. *)
Definition callResult
    `{Unmarshaler Pixel} `{Unmarshaler (slice Pixel)}
    `{Unmarshaler ShortLink} `{Unmarshaler ExpandResponse}
    `{Unmarshaler string} `{Unmarshaler Stats}
    `{Unmarshaler Tag} `{Unmarshaler (slice Tag)}
    (call : Call) (body : ioutil.Reader) : Returned * option error :=
  match call with
  | CallCreatePixel _ | CallGetPixel _ | CallUpdatePixel _ =>
      pointerResult PixelPtr (json_Decode body Pixel_zero)
  | CallListPixels => sliceResult PixelSlice (json_Decode body (None : slice Pixel))
  | CallCreateShortLink _ | CallGetShortLink _ | CallUpdateShortLink _ =>
      pointerResult ShortLinkPtr (json_Decode body ShortLink_zero)
  | CallExpandShortLink _ =>
      pointerResult ExpandResponsePtr (json_Decode body ExpandResponse_zero)
  | CallListShortLinks _ | CallBulkShortenLinks _ => textResult (json_Decode body "")
  | CallGetStats _ => pointerResult StatsPtr (json_Decode body Stats_zero)
  | CallListTags => sliceResult TagSlice (json_Decode body (None : slice Tag))
  | CallCreateTag _ | CallGetTag _ | CallUpdateTag _ _ =>
      pointerResult TagPtr (json_Decode body Tag_zero)
  | CallDeletePixel _ | CallDeleteShortLink _ | CallDeleteTag _ => (NoValue, None)
  end.

(** ** A model of encoding/json for the examples

    The dispatcher treats the codec as a parameter; this module gives the
    instances the examples run on: the decoder of a [Tag] and of a [string],
    and the encoder of a [map[string]string].  It follows [encoding/json] on
    ASCII text; bytes from 128 up are copied as they are, which is what
    [encoding/json] does on well-formed UTF-8 other than U+2028 and U+2029.
    The text of a syntax error is not reproduced. *)
Module GoJSON.

Inductive Value : Type :=
| Null
| Bool (b : bool)
| Number (literal : string)
| Str (s : string)
| Arr (elems : list Value)
| Obj (members : list (string * Value)).

(** The outcome of scanning a prefix of the input. *)
Inductive scan (A : Type) : Type :=
| Done (a : A) (rest : string)
| More
| Bad.
Arguments Done {A} a rest.
Arguments More {A}.
Arguments Bad {A}.

Definition code (c : ascii) : N := N_of_ascii c.

Definition isSpace (c : ascii) : bool :=
  existsb (N.eqb (code c)) [32; 9; 13; 10]%N.

Fixpoint skipSpace (s : string) : string :=
  match s with
  | String c rest => if isSpace c then skipSpace rest else s
  | EmptyString => EmptyString
  end.

Definition isDecimalDigit (c : ascii) : bool := (48 <=? code c)%N && (code c <=? 57)%N.

Definition hexVal (c : ascii) : option N :=
  let n := code c in
  if (48 <=? n)%N && (n <=? 57)%N then Some (n - 48)%N
  else if (97 <=? n)%N && (n <=? 102)%N then Some (n - 87)%N
  else if (65 <=? n)%N && (n <=? 70)%N then Some (n - 55)%N
  else None.

Definition getu4 (a b c d : ascii) : option N :=
  match hexVal a, hexVal b, hexVal c, hexVal d with
  | Some x, Some y, Some z, Some w => Some (((x * 16 + y) * 16 + z) * 16 + w)%N
  | _, _, _, _ => None
  end.

(** [utf8.EncodeRune] on a code point below 0x110000. *)
Definition encodeRune (r : N) : string :=
  let byte (n : N) := ascii_of_N n in
  if (r <? 128)%N then String (byte r) ""
  else if (r <? 2048)%N then
    String (byte (192 + r / 64)%N) (String (byte (128 + r mod 64)%N) "")
  else if (r <? 65536)%N then
    String (byte (224 + r / 4096)%N)
      (String (byte (128 + (r / 64) mod 64)%N) (String (byte (128 + r mod 64)%N) ""))
  else
    String (byte (240 + r / 262144)%N)
      (String (byte (128 + (r / 4096) mod 64)%N)
         (String (byte (128 + (r / 64) mod 64)%N)
            (String (byte (128 + r mod 64)%N) ""))).

Definition isSurrogate (r : N) : bool := (55296 <=? r)%N && (r <? 57344)%N.
Definition isHighSurrogate (r : N) : bool := (55296 <=? r)%N && (r <? 56320)%N.
Definition isLowSurrogate (r : N) : bool := (56320 <=? r)%N && (r <? 57344)%N.

(** The low half of a surrogate pair, when the input goes on with one. *)
Definition lowSurrogateAhead (s : string) : option N :=
  match s with
  | String b (String u (String h1 (String h2 (String h3 (String h4 _))))) =>
      if (code b =? 92)%N && (code u =? 117)%N then
        match getu4 h1 h2 h3 h4 with
        | Some r => if isLowSurrogate r then Some r else None
        | None => None
        end
      else None
  | _ => None
  end.

(** The simple escapes: the byte a backslash followed by [c] stands for. *)
Definition simpleEscape (c : ascii) : option ascii :=
  let n := code c in
  if (n =? 34)%N || (n =? 92)%N || (n =? 47)%N then Some c
  else if (n =? 98)%N then Some (ascii_of_N 8)
  else if (n =? 102)%N then Some (ascii_of_N 12)
  else if (n =? 110)%N then Some (ascii_of_N 10)
  else if (n =? 114)%N then Some (ascii_of_N 13)
  else if (n =? 116)%N then Some (ascii_of_N 9)
  else None.

(** A string literal after its opening quote: its content with the escapes
    resolved, and the input after the closing quote.  [skip] counts bytes of
    an escape already accounted for (the low half of a surrogate pair). *)
Fixpoint scanString (s : string) (skip : nat) : scan string :=
  match s with
  | EmptyString => More
  | String c rest =>
      match skip with
      | S skip' => scanString rest skip'
      | O =>
          if (code c =? 34)%N then Done "" rest
          else if (code c <? 32)%N then Bad
          else if (code c =? 92)%N then
            match rest with
            | EmptyString => More
            | String e rest1 =>
                if (code e =? 117)%N then
                  match rest1 with
                  | String h1 (String h2 (String h3 (String h4 rest2))) =>
                      match getu4 h1 h2 h3 h4 with
                      | None => Bad
                      | Some r =>
                          let '(out, skip') :=
                            if isSurrogate r then
                              match lowSurrogateAhead rest2 with
                              | Some r1 =>
                                  if isHighSurrogate r then
                                    (encodeRune
                                       (65536 + (r - 55296) * 1024 + (r1 - 56320))%N,
                                     6%nat)
                                  else (encodeRune 65533, 0%nat)
                              | None => (encodeRune 65533, 0%nat)
                              end
                            else (encodeRune r, 0%nat) in
                          match scanString rest1 (4 + skip') with
                          | Done t rest' => Done (out +:+ t) rest'
                          | More => More
                          | Bad => Bad
                          end
                      end
                  | _ =>
                      if forallb (λ h, bool_decide (is_Some (hexVal h)))
                           (list_ascii_of_string rest1)
                      then More else Bad
                  end
                else
                  match simpleEscape e with
                  | None => Bad
                  | Some b =>
                      match scanString rest 1 with
                      | Done t rest' => Done (String b t) rest'
                      | More => More
                      | Bad => Bad
                      end
                  end
            end
          else
            match scanString rest 0 with
            | Done t rest' => Done (String c t) rest'
            | More => More
            | Bad => Bad
            end
      end
  end.

(** The longest prefix of decimal digits, and what follows it. *)
Fixpoint digits (s : string) : string * string :=
  match s with
  | String c rest =>
      if isDecimalDigit c then let '(ds, r) := digits rest in (String c ds, r)
      else (EmptyString, s)
  | EmptyString => (EmptyString, EmptyString)
  end.

(** At least one digit. *)
Definition digits1 (s : string) : scan string :=
  match digits s with
  | (EmptyString, EmptyString) => More
  | (EmptyString, _) => Bad
  | (ds, r) => Done ds r
  end.

Definition scanFraction (s : string) : scan string :=
  match s with
  | String c rest =>
      if (code c =? 46)%N then
        match digits1 rest with
        | Done ds r => Done (String c ds) r
        | More => More
        | Bad => Bad
        end
      else Done "" s
  | EmptyString => Done "" s
  end.

Definition scanExponent (s : string) : scan string :=
  match s with
  | String c rest =>
      if (code c =? 101)%N || (code c =? 69)%N then
        let '(sign, rest1) :=
          match rest with
          | String g r => if (code g =? 43)%N || (code g =? 45)%N
                          then (String g "", r) else ("", rest)
          | EmptyString => ("", rest)
          end in
        match digits1 rest1 with
        | Done ds r => Done (String c (sign +:+ ds)) r
        | More => More
        | Bad => Bad
        end
      else Done "" s
  | EmptyString => Done "" s
  end.

(** A number literal: an optional minus sign, then a zero or a digit from 1
    to 9 followed by digits, then optionally a point and digits, then
    optionally an exponent (e or E, an optional sign, digits). *)
Definition scanNumber (s : string) : scan string :=
  let '(sign, s1) :=
    match s with
    | String c r => if (code c =? 45)%N then (String c "", r) else ("", s)
    | EmptyString => ("", s)
    end in
  match s1 with
  | EmptyString => More
  | String c r1 =>
      if negb (isDecimalDigit c) then Bad
      else
        let '(int, r2) :=
          if (code c =? 48)%N then (String c "", r1)
          else let '(ds, r) := digits r1 in (String c ds, r) in
        match scanFraction r2 with
        | Done frac r3 =>
            match scanExponent r3 with
            | Done exp r4 => Done (sign +:+ int +:+ frac +:+ exp) r4
            | More => More
            | Bad => Bad
            end
        | More => More
        | Bad => Bad
        end
  end.

(** The rest of the input after the word [w] ([true], [false], [null]). *)
Fixpoint scanWord (w s : string) : scan unit :=
  match w, s with
  | EmptyString, _ => Done tt s
  | String _ _, EmptyString => More
  | String a w', String c rest =>
      if Ascii.eqb a c then scanWord w' rest else Bad
  end.

(** One JSON value at the head of the input, after optional white space.
    Every nested call uses up one unit of fuel: a value costs one unit more
    than its members or elements, and a member or element one unit more than
    its value and than the members or elements after it. *)
Fixpoint scanValue (fuel : nat) (s : string) : scan Value :=
  match fuel with
  | O => Bad
  | S fuel =>
      match skipSpace s with
      | EmptyString => More
      | String c rest =>
          let n := code c in
          if (n =? 123)%N then
            match skipSpace rest with
            | EmptyString => More
            | String c1 rest1 =>
                if (code c1 =? 125)%N then Done (Obj []) rest1
                else match scanMembers fuel rest with
                     | Done ms r => Done (Obj ms) r
                     | More => More
                     | Bad => Bad
                     end
            end
          else if (n =? 91)%N then
            match skipSpace rest with
            | EmptyString => More
            | String c1 rest1 =>
                if (code c1 =? 93)%N then Done (Arr []) rest1
                else match scanElems fuel rest with
                     | Done vs r => Done (Arr vs) r
                     | More => More
                     | Bad => Bad
                     end
            end
          else if (n =? 34)%N then
            match scanString rest 0 with
            | Done t r => Done (Str t) r
            | More => More
            | Bad => Bad
            end
          else if (n =? 116)%N then
            match scanWord "rue" rest with
            | Done _ r => Done (Bool true) r
            | More => More
            | Bad => Bad
            end
          else if (n =? 102)%N then
            match scanWord "alse" rest with
            | Done _ r => Done (Bool false) r
            | More => More
            | Bad => Bad
            end
          else if (n =? 110)%N then
            match scanWord "ull" rest with
            | Done _ r => Done Null r
            | More => More
            | Bad => Bad
            end
          else if (n =? 45)%N || isDecimalDigit c then
            match scanNumber (String c rest) with
            | Done lit r => Done (Number lit) r
            | More => More
            | Bad => Bad
            end
          else Bad
      end
  end
(** The elements of an array up to its closing bracket. *)
with scanElems (fuel : nat) (s : string) : scan (list Value) :=
  match fuel with
  | O => Bad
  | S fuel =>
      match scanValue fuel s with
      | Done v r =>
          match skipSpace r with
          | EmptyString => More
          | String c rest =>
              if (code c =? 44)%N then
                match scanElems fuel rest with
                | Done vs r' => Done (v :: vs) r'
                | More => More
                | Bad => Bad
                end
              else if (code c =? 93)%N then Done [v] rest
              else Bad
          end
      | More => More
      | Bad => Bad
      end
  end
(** The members of an object up to its closing brace. *)
with scanMembers (fuel : nat) (s : string) : scan (list (string * Value)) :=
  match fuel with
  | O => Bad
  | S fuel =>
      match skipSpace s with
      | EmptyString => More
      | String q rest =>
          if negb (code q =? 34)%N then Bad
          else
            match scanString rest 0 with
            | Done k r =>
                match skipSpace r with
                | EmptyString => More
                | String c r1 =>
                    if negb (code c =? 58)%N then Bad
                    else
                      match scanValue fuel r1 with
                      | Done v r2 =>
                          match skipSpace r2 with
                          | EmptyString => More
                          | String c2 r3 =>
                              if (code c2 =? 44)%N then
                                match scanMembers fuel r3 with
                                | Done ms r' => Done ((k, v) :: ms) r'
                                | More => More
                                | Bad => Bad
                                end
                              else if (code c2 =? 125)%N then Done [(k, v)] r3
                              else Bad
                          end
                      | More => More
                      | Bad => Bad
                      end
                end
            | More => More
            | Bad => Bad
            end
      end
  end.

(** The fuel the decoder scans the input [s] with; it is never used up
    ([GoJSONFacts.scanValue_enough_fuel]). *)
Definition fuelFor (s : string) : nat := (3 * String.length s + 3)%nat.

(** *** Unmarshalling *)

(** How a type error names the JSON value it met. *)
Definition describe (v : Value) : string :=
  match v with
  | Null => "null"
  | Bool _ => "bool"
  | Number _ => "number"
  | Str _ => "string"
  | Arr _ => "array"
  | Obj _ => "object"
  end.

Definition typeError (what target : string) : error :=
  errors_New ("json: cannot unmarshal " +:+ what +:+ " into Go " +:+ target).

(** The value of a string of decimal digits. *)
Fixpoint digitsValue (s : string) (acc : Z) : Z :=
  match s with
  | String c rest => digitsValue rest (10 * acc + Z.of_N (code c - 48))
  | EmptyString => acc
  end.

(** [strconv.ParseInt(literal, 10, 64)] on a JSON number literal: an
    integer literal within the range of [int64], else nothing. *)
Definition parseInt64 (literal : string) : option Z :=
  let '(neg, body) :=
    match literal with
    | String c r => if (code c =? 45)%N then (true, r) else (false, literal)
    | EmptyString => (false, literal)
    end in
  match digits body with
  | (ds, EmptyString) =>
      let n := if neg then - digitsValue ds 0 else digitsValue ds 0 in
      if (- 2 ^ 63 <=? n) && (n <? 2 ^ 63) then Some n else None
  | _ => None
  end.

(** Storing a JSON value into a field of type [int]. *)
Definition setInt (field : string) (v : Value) (old : Z) : Z * option error :=
  match v with
  | Null => (old, None)
  | Number lit =>
      match parseInt64 lit with
      | Some n => (n, None)
      | None => (old, Some (typeError ("number " +:+ lit)
                              ("struct field " +:+ field +:+ " of type int")))
      end
  | _ => (old, Some (typeError (describe v)
                       ("struct field " +:+ field +:+ " of type int")))
  end.

(** Storing a JSON value into a field of type [string]. *)
Definition setString (field : string) (v : Value) (old : string)
  : string * option error :=
  match v with
  | Null => (old, None)
  | Str s => (s, None)
  | _ => (old, Some (typeError (describe v)
                       ("struct field " +:+ field +:+ " of type string")))
  end.

(** Storing a JSON value into a field of type [bool]. *)
Definition setBool (field : string) (v : Value) (old : bool) : bool * option error :=
  match v with
  | Null => (old, None)
  | Bool b => (b, None)
  | _ => (old, Some (typeError (describe v)
                       ("struct field " +:+ field +:+ " of type bool")))
  end.

(** A JSON value as the content of an [interface{}]; an object is kept as
    the list of its members in the order of the text. *)
Fixpoint toAny (v : Value) : any :=
  match v with
  | Null => any_nil
  | Bool b => any_bool b
  | Number lit => any_number lit
  | Str s => any_string s
  | Arr vs => any_slice (map toAny vs)
  | Obj ms => any_map (map (λ kv, (kv.1, toAny kv.2)) ms)
  end.

(** Storing into a field of type [interface{}] never fails. *)
Definition setAny (v : Value) (old : any) : any * option error := (toAny v, None).

(** Storing into a field of type [[]interface{}]. *)
Definition setAnySlice (field : string) (v : Value) (old : slice any)
  : slice any * option error :=
  match v with
  | Null => (None, None)
  | Arr vs => (Some (map toAny vs), None)
  | _ => (old, Some (typeError (describe v)
                       ("struct field " +:+ field +:+ " of type []interface {}")))
  end.

(** Storing into a field of type [map[string]interface{}]: the members are
    added to the entries already there. *)
Definition setAnyMap (field : string) (v : Value) (old : option (list (string * any)))
  : option (list (string * any)) * option error :=
  match v with
  | Null => (None, None)
  | Obj ms => (Some (default [] old ++ map (λ kv, (kv.1, toAny kv.2)) ms)%list, None)
  | _ => (old, Some (typeError (describe v)
                       ("struct field " +:+ field +:+ " of type map[string]interface {}")))
  end.

Definition toLower (c : ascii) : ascii :=
  if (65 <=? code c)%N && (code c <=? 90)%N then ascii_of_N (code c + 32) else c.

Fixpoint lower (s : string) : string :=
  match s with
  | String c rest => String (toLower c) (lower rest)
  | EmptyString => EmptyString
  end.

(** A field of a struct: its name in JSON and how a value is stored in it. *)
Record Field (T : Type) : Type := mkField {
  fieldName : string;
  store : Value → T → T * option error
}.
Arguments mkField {T} fieldName store.
Arguments fieldName {T} f.
Arguments store {T} f v t.

(** The field a key selects: the one with that name, else the first whose
    name is the key up to the case of the letters. *)
Definition findField {T : Type} (fields : list (Field T)) (key : string)
  : option (Field T) :=
  match List.find (λ f, String.eqb (fieldName f) key) fields with
  | Some f => Some f
  | None => List.find (λ f, String.eqb (lower (fieldName f)) (lower key)) fields
  end.

(** The members of an object stored one after the other; a key that selects
    no field is skipped, decoding goes on after a type error, and the first
    error is the one reported. *)
Fixpoint storeMembers {T : Type} (fields : list (Field T))
    (ms : list (string * Value)) (t : T) (err : option error) : T * option error :=
  match ms with
  | [] => (t, err)
  | (k, v) :: rest =>
      match findField fields k with
      | Some f =>
          let '(t', e) := store f v t in
          storeMembers fields rest t' (match err with Some _ => err | None => e end)
      | None => storeMembers fields rest t err
      end
  end.

Definition unmarshalStruct {T : Type} (typeName : string) (fields : list (Field T))
    (v : Value) (t : T) : T * option error :=
  match v with
  | Null => (t, None)
  | Obj ms => storeMembers fields ms t None
  | _ => (t, Some (typeError (describe v) ("value of type " +:+ typeName)))
  end.

(** The elements of an array decoded one after the other, each into a zero
    value. *)
Fixpoint storeElems {T : Type} (elem : Value → T → T * option error) (zero : T)
    (vs : list Value) (err : option error) : list T * option error :=
  match vs with
  | [] => ([], err)
  | v :: rest =>
      let '(t, e) := elem v zero in
      let '(ts, err') :=
        storeElems elem zero rest (match err with Some _ => err | None => e end) in
      (t :: ts, err')
  end.

Definition unmarshalSlice {T : Type} (typeName : string)
    (elem : Value → T → T * option error) (zero : T)
    (v : Value) (old : slice T) : slice T * option error :=
  match v with
  | Null => (None, None)
  | Arr vs => let '(ts, err) := storeElems elem zero vs None in (Some ts, err)
  | _ => (old, Some (typeError (describe v) ("value of type []" +:+ typeName)))
  end.

Definition tagFields : list (Field Tag) :=
  [ mkField "id" (λ v t,
      let '(n, e) := setInt "Tag.id" v (Tag_ID t) in
      (mkTag n (Tag_Tag t) (Tag_CreatedAt t) (Tag_UpdatedAt t), e));
    mkField "tag" (λ v t,
      let '(x, e) := setString "Tag.tag" v (Tag_Tag t) in
      (mkTag (Tag_ID t) x (Tag_CreatedAt t) (Tag_UpdatedAt t), e));
    mkField "created_at" (λ v t,
      let '(x, e) := setString "Tag.created_at" v (Tag_CreatedAt t) in
      (mkTag (Tag_ID t) (Tag_Tag t) x (Tag_UpdatedAt t), e));
    mkField "updated_at" (λ v t,
      let '(x, e) := setString "Tag.updated_at" v (Tag_UpdatedAt t) in
      (mkTag (Tag_ID t) (Tag_Tag t) (Tag_CreatedAt t) x, e)) ].

Definition unmarshalTag : Value → Tag → Tag * option error :=
  unmarshalStruct "tly.Tag" tagFields.

Definition pixelFields : list (Field Pixel) :=
  [ mkField "id" (λ v p,
      let '(n, e) := setInt "Pixel.id" v (Pixel_ID p) in
      (mkPixel n (Pixel_Name p) (Pixel_PixelID p) (Pixel_PixelType p)
         (Pixel_CreatedAt p) (Pixel_UpdatedAt p), e));
    mkField "name" (λ v p,
      let '(x, e) := setString "Pixel.name" v (Pixel_Name p) in
      (mkPixel (Pixel_ID p) x (Pixel_PixelID p) (Pixel_PixelType p)
         (Pixel_CreatedAt p) (Pixel_UpdatedAt p), e));
    mkField "pixel_id" (λ v p,
      let '(x, e) := setString "Pixel.pixel_id" v (Pixel_PixelID p) in
      (mkPixel (Pixel_ID p) (Pixel_Name p) x (Pixel_PixelType p)
         (Pixel_CreatedAt p) (Pixel_UpdatedAt p), e));
    mkField "pixel_type" (λ v p,
      let '(x, e) := setString "Pixel.pixel_type" v (Pixel_PixelType p) in
      (mkPixel (Pixel_ID p) (Pixel_Name p) (Pixel_PixelID p) x
         (Pixel_CreatedAt p) (Pixel_UpdatedAt p), e));
    mkField "created_at" (λ v p,
      let '(x, e) := setString "Pixel.created_at" v (Pixel_CreatedAt p) in
      (mkPixel (Pixel_ID p) (Pixel_Name p) (Pixel_PixelID p) (Pixel_PixelType p)
         x (Pixel_UpdatedAt p), e));
    mkField "updated_at" (λ v p,
      let '(x, e) := setString "Pixel.updated_at" v (Pixel_UpdatedAt p) in
      (mkPixel (Pixel_ID p) (Pixel_Name p) (Pixel_PixelID p) (Pixel_PixelType p)
         (Pixel_CreatedAt p) x, e)) ].

Definition unmarshalPixel : Value → Pixel → Pixel * option error :=
  unmarshalStruct "tly.Pixel" pixelFields.

Definition expandResponseFields : list (Field ExpandResponse) :=
  [ mkField "long_url" (λ v r,
      let '(x, e) := setString "ExpandResponse.long_url" v (ExpandResponse_LongURL r) in
      (mkExpandResponse x (ExpandResponse_Expired r), e));
    mkField "expired" (λ v r,
      let '(b, e) := setBool "ExpandResponse.expired" v (ExpandResponse_Expired r) in
      (mkExpandResponse (ExpandResponse_LongURL r) b, e)) ].

Definition unmarshalExpandResponse
  : Value → ExpandResponse → ExpandResponse * option error :=
  unmarshalStruct "tly.ExpandResponse" expandResponseFields.

Definition shortLinkFields : list (Field ShortLink) :=
  [ mkField "short_url" (λ v l,
      let '(x, e) := setString "ShortLink.short_url" v (ShortLink_ShortURL l) in
      (mkShortLink x (ShortLink_Description l) (ShortLink_LongURL l)
         (ShortLink_Domain l) (ShortLink_ShortID l) (ShortLink_ExpireAtViews l)
         (ShortLink_ExpireAtDatetime l) (ShortLink_PublicStats l)
         (ShortLink_CreatedAt l) (ShortLink_UpdatedAt l) (ShortLink_Meta l), e));
    mkField "description" (λ v l,
      let '(x, e) := setString "ShortLink.description" v (ShortLink_Description l) in
      (mkShortLink (ShortLink_ShortURL l) x (ShortLink_LongURL l)
         (ShortLink_Domain l) (ShortLink_ShortID l) (ShortLink_ExpireAtViews l)
         (ShortLink_ExpireAtDatetime l) (ShortLink_PublicStats l)
         (ShortLink_CreatedAt l) (ShortLink_UpdatedAt l) (ShortLink_Meta l), e));
    mkField "long_url" (λ v l,
      let '(x, e) := setString "ShortLink.long_url" v (ShortLink_LongURL l) in
      (mkShortLink (ShortLink_ShortURL l) (ShortLink_Description l) x
         (ShortLink_Domain l) (ShortLink_ShortID l) (ShortLink_ExpireAtViews l)
         (ShortLink_ExpireAtDatetime l) (ShortLink_PublicStats l)
         (ShortLink_CreatedAt l) (ShortLink_UpdatedAt l) (ShortLink_Meta l), e));
    mkField "domain" (λ v l,
      let '(x, e) := setString "ShortLink.domain" v (ShortLink_Domain l) in
      (mkShortLink (ShortLink_ShortURL l) (ShortLink_Description l) (ShortLink_LongURL l)
         x (ShortLink_ShortID l) (ShortLink_ExpireAtViews l)
         (ShortLink_ExpireAtDatetime l) (ShortLink_PublicStats l)
         (ShortLink_CreatedAt l) (ShortLink_UpdatedAt l) (ShortLink_Meta l), e));
    mkField "short_id" (λ v l,
      let '(x, e) := setString "ShortLink.short_id" v (ShortLink_ShortID l) in
      (mkShortLink (ShortLink_ShortURL l) (ShortLink_Description l) (ShortLink_LongURL l)
         (ShortLink_Domain l) x (ShortLink_ExpireAtViews l)
         (ShortLink_ExpireAtDatetime l) (ShortLink_PublicStats l)
         (ShortLink_CreatedAt l) (ShortLink_UpdatedAt l) (ShortLink_Meta l), e));
    mkField "expire_at_views" (λ v l,
      let '(x, e) := setAny v (ShortLink_ExpireAtViews l) in
      (mkShortLink (ShortLink_ShortURL l) (ShortLink_Description l) (ShortLink_LongURL l)
         (ShortLink_Domain l) (ShortLink_ShortID l) x
         (ShortLink_ExpireAtDatetime l) (ShortLink_PublicStats l)
         (ShortLink_CreatedAt l) (ShortLink_UpdatedAt l) (ShortLink_Meta l), e));
    mkField "expire_at_datetime" (λ v l,
      let '(x, e) := setAny v (ShortLink_ExpireAtDatetime l) in
      (mkShortLink (ShortLink_ShortURL l) (ShortLink_Description l) (ShortLink_LongURL l)
         (ShortLink_Domain l) (ShortLink_ShortID l) (ShortLink_ExpireAtViews l)
         x (ShortLink_PublicStats l)
         (ShortLink_CreatedAt l) (ShortLink_UpdatedAt l) (ShortLink_Meta l), e));
    mkField "public_stats" (λ v l,
      let '(x, e) := setBool "ShortLink.public_stats" v (ShortLink_PublicStats l) in
      (mkShortLink (ShortLink_ShortURL l) (ShortLink_Description l) (ShortLink_LongURL l)
         (ShortLink_Domain l) (ShortLink_ShortID l) (ShortLink_ExpireAtViews l)
         (ShortLink_ExpireAtDatetime l) x
         (ShortLink_CreatedAt l) (ShortLink_UpdatedAt l) (ShortLink_Meta l), e));
    mkField "created_at" (λ v l,
      let '(x, e) := setString "ShortLink.created_at" v (ShortLink_CreatedAt l) in
      (mkShortLink (ShortLink_ShortURL l) (ShortLink_Description l) (ShortLink_LongURL l)
         (ShortLink_Domain l) (ShortLink_ShortID l) (ShortLink_ExpireAtViews l)
         (ShortLink_ExpireAtDatetime l) (ShortLink_PublicStats l)
         x (ShortLink_UpdatedAt l) (ShortLink_Meta l), e));
    mkField "updated_at" (λ v l,
      let '(x, e) := setString "ShortLink.updated_at" v (ShortLink_UpdatedAt l) in
      (mkShortLink (ShortLink_ShortURL l) (ShortLink_Description l) (ShortLink_LongURL l)
         (ShortLink_Domain l) (ShortLink_ShortID l) (ShortLink_ExpireAtViews l)
         (ShortLink_ExpireAtDatetime l) (ShortLink_PublicStats l)
         (ShortLink_CreatedAt l) x (ShortLink_Meta l), e));
    mkField "meta" (λ v l,
      let '(x, e) := setAny v (ShortLink_Meta l) in
      (mkShortLink (ShortLink_ShortURL l) (ShortLink_Description l) (ShortLink_LongURL l)
         (ShortLink_Domain l) (ShortLink_ShortID l) (ShortLink_ExpireAtViews l)
         (ShortLink_ExpireAtDatetime l) (ShortLink_PublicStats l)
         (ShortLink_CreatedAt l) (ShortLink_UpdatedAt l) x, e)) ].

Definition unmarshalShortLink : Value → ShortLink → ShortLink * option error :=
  unmarshalStruct "tly.ShortLink" shortLinkFields.

Definition statsFields : list (Field Stats) :=
  [ mkField "clicks" (λ v t,
      let '(n, e) := setInt "Stats.clicks" v (Stats_Clicks t) in
      (mkStats n (Stats_UniqueClicks t) (Stats_Browsers t) (Stats_Countries t)
         (Stats_Referrers t) (Stats_Platforms t) (Stats_DailyClicks t) (Stats_Data t), e));
    mkField "unique_clicks" (λ v t,
      let '(n, e) := setInt "Stats.unique_clicks" v (Stats_UniqueClicks t) in
      (mkStats (Stats_Clicks t) n (Stats_Browsers t) (Stats_Countries t)
         (Stats_Referrers t) (Stats_Platforms t) (Stats_DailyClicks t) (Stats_Data t), e));
    mkField "browsers" (λ v t,
      let '(x, e) := setAnySlice "Stats.browsers" v (Stats_Browsers t) in
      (mkStats (Stats_Clicks t) (Stats_UniqueClicks t) x (Stats_Countries t)
         (Stats_Referrers t) (Stats_Platforms t) (Stats_DailyClicks t) (Stats_Data t), e));
    mkField "countries" (λ v t,
      let '(x, e) := setAnySlice "Stats.countries" v (Stats_Countries t) in
      (mkStats (Stats_Clicks t) (Stats_UniqueClicks t) (Stats_Browsers t) x
         (Stats_Referrers t) (Stats_Platforms t) (Stats_DailyClicks t) (Stats_Data t), e));
    mkField "referrers" (λ v t,
      let '(x, e) := setAnySlice "Stats.referrers" v (Stats_Referrers t) in
      (mkStats (Stats_Clicks t) (Stats_UniqueClicks t) (Stats_Browsers t) (Stats_Countries t)
         x (Stats_Platforms t) (Stats_DailyClicks t) (Stats_Data t), e));
    mkField "platforms" (λ v t,
      let '(x, e) := setAnySlice "Stats.platforms" v (Stats_Platforms t) in
      (mkStats (Stats_Clicks t) (Stats_UniqueClicks t) (Stats_Browsers t) (Stats_Countries t)
         (Stats_Referrers t) x (Stats_DailyClicks t) (Stats_Data t), e));
    mkField "daily_clicks" (λ v t,
      let '(x, e) := setAnySlice "Stats.daily_clicks" v (Stats_DailyClicks t) in
      (mkStats (Stats_Clicks t) (Stats_UniqueClicks t) (Stats_Browsers t) (Stats_Countries t)
         (Stats_Referrers t) (Stats_Platforms t) x (Stats_Data t), e));
    mkField "data" (λ v t,
      let '(x, e) := setAnyMap "Stats.data" v (Stats_Data t) in
      (mkStats (Stats_Clicks t) (Stats_UniqueClicks t) (Stats_Browsers t) (Stats_Countries t)
         (Stats_Referrers t) (Stats_Platforms t) (Stats_DailyClicks t) x, e)) ].

Definition unmarshalStats : Value → Stats → Stats * option error :=
  unmarshalStruct "tly.Stats" statsFields.

Definition unmarshalString (v : Value) (s : string) : string * option error :=
  match v with
  | Null => (s, None)
  | Str t => (t, None)
  | _ => (s, Some (typeError (describe v) "value of type string"))
  end.

(** *** The decoder on a stream *)

Definition io_EOF : error := errors_New "EOF".
Definition io_ErrUnexpectedEOF : error := errors_New "unexpected EOF".
Definition SyntaxError : error := errors_New "invalid character".

(** What the decoder answers when the stream stops inside a value or before
    one: the read error, or one of the two end-of-file errors. *)
Definition streamEnded (r : ioutil.Reader) : error :=
  match ioutil.readErr r with
  | Some e => e
  | None =>
      match skipSpace (ioutil.delivered r) with
      | EmptyString => io_EOF
      | _ => io_ErrUnexpectedEOF
      end
  end.

(** [Decoder.Decode]: the first value of the stream is scanned, then
    unmarshalled by [store]; what follows it is left unread.  A value that is
    not an object or an array is known to be complete only at the byte after
    it or at a clean end of file. *)
Definition Decode {R : Type} (store : Value → R → R * option error)
    (r : ioutil.Reader) (slot : R) : R * option error :=
  let input := ioutil.delivered r in
  match scanValue (fuelFor input) input with
  | Bad => (slot, Some SyntaxError)
  | More => (slot, Some (streamEnded r))
  | Done v rest =>
      match v, rest, ioutil.readErr r with
      | Obj _, _, _ | Arr _, _, _ => store v slot
      | _, EmptyString, Some e => (slot, Some e)
      | _, _, _ => store v slot
      end
  end.

(** *** Marshalling *)

Definition hexDigit (n : N) : ascii :=
  if (n <? 10)%N then ascii_of_N (48 + n) else ascii_of_N (87 + n).

(** One byte of a string inside its quotes, with HTML escaping on as in
    [json.Marshal]. *)
Definition escapeByte (c : ascii) : string :=
  let n := code c in
  let bs := String (ascii_of_N 92) in
  if (n =? 34)%N || (n =? 92)%N then bs (String c "")
  else if (n =? 8)%N then bs "b"
  else if (n =? 12)%N then bs "f"
  else if (n =? 10)%N then bs "n"
  else if (n =? 13)%N then bs "r"
  else if (n =? 9)%N then bs "t"
  else if (n <? 32)%N || (n =? 60)%N || (n =? 62)%N || (n =? 38)%N then
    bs ("u00" +:+ String (hexDigit (n / 16)) (String (hexDigit (n mod 16)) ""))
  else String c "".

Fixpoint escape (s : string) : string :=
  match s with
  | String c rest => escapeByte c +:+ escape rest
  | EmptyString => EmptyString
  end.

Definition encodeString (s : string) : string := quoted (escape s).

Definition encodeInt (n : Z) : string := pretty n.
Definition encodeBool (b : bool) : string := if b then "true" else "false".

Definition encodeArray (items : list string) : string :=
  "[" +:+ String.concat "," items +:+ "]".

(** An object from its members, the values already encoded. *)
Definition encodeObject (ms : list (string * string)) : string :=
  "{" +:+ String.concat "," (map (λ kv, encodeString kv.1 +:+ ":" +:+ kv.2) ms) +:+ "}".

Definition keyLe (a b : string * string) : Prop := Is_true (String.leb a.1 b.1).
#[global] Instance keyLe_dec : RelDecision keyLe := λ a b, Is_true_dec _.

(** A Go map is written with its keys sorted. *)
Definition encodeMap (ms : list (string * string)) : string :=
  encodeObject (merge_sort keyLe ms).

(** The content of an [interface{}]; the members of [any_map] have distinct
    keys. *)
Fixpoint encodeAny (a : any) : string :=
  match a with
  | any_nil => "null"
  | any_bool b => encodeBool b
  | any_number lit => lit
  | any_string s => encodeString s
  | any_slice l => encodeArray (map encodeAny l)
  | any_map ms => encodeMap (map (λ kv, (kv.1, encodeAny kv.2)) ms)
  end.

(** [json.Marshal] of a [map[string]string] that is not nil.  It never
    fails. *)
Definition marshalMap (m : gmap string string) : result string :=
  Ok (encodeMap (map (λ kv, (kv.1, encodeString kv.2)) (map_to_list m))).

(** A member with [omitempty] whose field is a pointer. *)
Definition optional {A : Type} (name : string) (enc : A → string) (o : option A)
  : list (string * string) :=
  match o with
  | Some a => [(name, enc a)]
  | None => []
  end.

(** A member with [omitempty] whose field is a slice. *)
Definition nonEmpty {A : Type} (name : string) (enc : A → string) (l : slice A)
  : list (string * string) :=
  match l with
  | Some (x :: xs) => [(name, encodeArray (map enc (x :: xs)))]
  | _ => []
  end.

(** A member with [omitempty] whose field is an [interface{}]. *)
Definition notNil (name : string) (a : any) : list (string * string) :=
  match a with
  | any_nil => []
  | _ => [(name, encodeAny a)]
  end.

(** A slice without [omitempty]: the nil slice is written [null]. *)
Definition encodeSlice {A : Type} (enc : A → string) (l : slice A) : string :=
  match l with
  | Some xs => encodeArray (map enc xs)
  | None => "null"
  end.

Definition marshalPixelCreateRequest (r : PixelCreateRequest) : result string :=
  Ok (encodeObject
        [("name", encodeString (PixelCreateRequest_Name r));
         ("pixel_id", encodeString (PixelCreateRequest_PixelID r));
         ("pixel_type", encodeString (PixelCreateRequest_PixelType r))]).

Definition marshalPixelUpdateRequest (r : PixelUpdateRequest) : result string :=
  Ok (encodeObject
        [("id", encodeInt (PixelUpdateRequest_ID r));
         ("name", encodeString (PixelUpdateRequest_Name r));
         ("pixel_id", encodeString (PixelUpdateRequest_PixelID r));
         ("pixel_type", encodeString (PixelUpdateRequest_PixelType r))]).

Definition marshalShortLinkCreateRequest (r : ShortLinkCreateRequest) : result string :=
  Ok (encodeObject
        ([("long_url", encodeString (ShortLinkCreateRequest_LongURL r))]
         ++ optional "short_id" encodeString (ShortLinkCreateRequest_ShortID r)
         ++ [("domain", encodeString (ShortLinkCreateRequest_Domain r))]
         ++ optional "expire_at_datetime" encodeString
              (ShortLinkCreateRequest_ExpireAtDatetime r)
         ++ optional "expire_at_views" encodeInt (ShortLinkCreateRequest_ExpireAtViews r)
         ++ optional "description" encodeString (ShortLinkCreateRequest_Description r)
         ++ optional "public_stats" encodeBool (ShortLinkCreateRequest_PublicStats r)
         ++ optional "password" encodeString (ShortLinkCreateRequest_Password r)
         ++ nonEmpty "tags" encodeInt (ShortLinkCreateRequest_Tags r)
         ++ nonEmpty "pixels" encodeInt (ShortLinkCreateRequest_Pixels r)
         ++ notNil "meta" (ShortLinkCreateRequest_Meta r))%list).

Definition marshalShortLinkUpdateRequest (r : ShortLinkUpdateRequest) : result string :=
  Ok (encodeObject
        ([("short_url", encodeString (ShortLinkUpdateRequest_ShortURL r))]
         ++ optional "short_id" encodeString (ShortLinkUpdateRequest_ShortID r)
         ++ [("long_url", encodeString (ShortLinkUpdateRequest_LongURL r))]
         ++ optional "expire_at_datetime" encodeString
              (ShortLinkUpdateRequest_ExpireAtDatetime r)
         ++ optional "expire_at_views" encodeInt (ShortLinkUpdateRequest_ExpireAtViews r)
         ++ optional "description" encodeString (ShortLinkUpdateRequest_Description r)
         ++ optional "public_stats" encodeBool (ShortLinkUpdateRequest_PublicStats r)
         ++ optional "password" encodeString (ShortLinkUpdateRequest_Password r)
         ++ nonEmpty "tags" encodeInt (ShortLinkUpdateRequest_Tags r)
         ++ nonEmpty "pixels" encodeInt (ShortLinkUpdateRequest_Pixels r)
         ++ notNil "meta" (ShortLinkUpdateRequest_Meta r))%list).

Definition marshalExpandRequest (r : ExpandRequest) : result string :=
  Ok (encodeObject
        ([("short_url", encodeString (ExpandRequest_ShortURL r))]
         ++ optional "password" encodeString (ExpandRequest_Password r))%list).

Definition marshalBulkShortenRequest (r : BulkShortenRequest) : result string :=
  Ok (encodeObject
        ([("domain", encodeString (BulkShortenRequest_Domain r));
          ("links", encodeSlice encodeString (BulkShortenRequest_Links r))]
         ++ nonEmpty "tags" encodeInt (BulkShortenRequest_Tags r)
         ++ nonEmpty "pixels" encodeInt (BulkShortenRequest_Pixels r))%list).

End GoJSON.

(** ** A runtime for the examples *)

Module Demo.

(** [http.NewRequest] refuses a method that is not a token and a URL with an
    ASCII control character; the other ways a URL can fail to parse do not
    occur in the examples. *)
Definition validMethod (method : string) : bool :=
  negb (String.eqb method "") &&
  forallb http.validHeaderFieldByte (list_ascii_of_string method).

Definition hasControlByte (url : string) : bool :=
  existsb (λ c, (GoJSON.code c <? 32)%N || (GoJSON.code c =? 127)%N)
    (list_ascii_of_string url).

Definition invalid (method url : string) : option error :=
  if negb (validMethod (if String.eqb method "" then "GET" else method)) then
    Some (errors_New ("net/http: invalid method " +:+ quoted method))
  else if hasControlByte url then
    Some (errors_New ("parse " +:+ quoted url +:+
                      ": net/url: invalid control character in URL"))
  else None.

(** A runtime whose default transport gives the same answer to every
    request, and whose [range] visits a map in the order of [map_to_list]. *)
Definition runtime (answer : result http.Response) : Runtime :=
  {| DefaultTransport := λ _ _, answer;
     NewRequest_invalid := invalid;
     rangeOrder := map_to_list;
     rangeOrder_perm := λ m, reflexivity (map_to_list m) |}.

(** An answer with the given status whose body is read to its end. *)
Definition answer (status : Z) (body : string) : result http.Response :=
  Ok {| http.StatusCode := status;
        http.RespBody := {| ioutil.delivered := body; ioutil.readErr := None |} |}.

(** An answer with the given status whose body breaks off after [body]. *)
Definition brokenAnswer (status : Z) (body : string) (e : error)
  : result http.Response :=
  Ok {| http.StatusCode := status;
        http.RespBody := {| ioutil.delivered := body; ioutil.readErr := Some e |} |}.

(** The codecs of [GoJSON] as instances, for this module only. *)
#[export] Instance mapMarshaler : Marshaler (gmap string string) := GoJSON.marshalMap.
#[export] Instance pixelCreateMarshaler : Marshaler PixelCreateRequest :=
  GoJSON.marshalPixelCreateRequest.
#[export] Instance pixelUpdateMarshaler : Marshaler PixelUpdateRequest :=
  GoJSON.marshalPixelUpdateRequest.
#[export] Instance shortLinkCreateMarshaler : Marshaler ShortLinkCreateRequest :=
  GoJSON.marshalShortLinkCreateRequest.
#[export] Instance shortLinkUpdateMarshaler : Marshaler ShortLinkUpdateRequest :=
  GoJSON.marshalShortLinkUpdateRequest.
#[export] Instance expandMarshaler : Marshaler ExpandRequest := GoJSON.marshalExpandRequest.
#[export] Instance bulkMarshaler : Marshaler BulkShortenRequest :=
  GoJSON.marshalBulkShortenRequest.
#[export] Instance tagUnmarshaler : Unmarshaler Tag := GoJSON.Decode GoJSON.unmarshalTag.
#[export] Instance tagsUnmarshaler : Unmarshaler (slice Tag) :=
  GoJSON.Decode (GoJSON.unmarshalSlice "tly.Tag" GoJSON.unmarshalTag Tag_zero).
#[export] Instance pixelUnmarshaler : Unmarshaler Pixel := GoJSON.Decode GoJSON.unmarshalPixel.
#[export] Instance pixelsUnmarshaler : Unmarshaler (slice Pixel) :=
  GoJSON.Decode (GoJSON.unmarshalSlice "tly.Pixel" GoJSON.unmarshalPixel Pixel_zero).
#[export] Instance shortLinkUnmarshaler : Unmarshaler ShortLink :=
  GoJSON.Decode GoJSON.unmarshalShortLink.
#[export] Instance expandUnmarshaler : Unmarshaler ExpandResponse :=
  GoJSON.Decode GoJSON.unmarshalExpandResponse.
#[export] Instance statsUnmarshaler : Unmarshaler Stats := GoJSON.Decode GoJSON.unmarshalStats.
#[export] Instance stringUnmarshaler : Unmarshaler string :=
  GoJSON.Decode GoJSON.unmarshalString.

(** The state right after [NewClient]. *)
Definition start (rt : Runtime) (apiKey : string) : State :=
  {| self := NewClient apiKey; sent := [] |}.

(** The body of the tag example: an object with the members [id], [tag],
    [created_at] and [updated_at]. *)
Definition tagBody : string :=
  "{" +:+ quoted "id" +:+ ":1," +:+ quoted "tag" +:+ ":" +:+ quoted "fall2024" +:+ ","
      +:+ quoted "created_at" +:+ ":" +:+ quoted "2024-01-01" +:+ ","
      +:+ quoted "updated_at" +:+ ":" +:+ quoted "2024-01-01" +:+ "}".

(** The body of the error example: an object with the member [message]. *)
Definition notFoundBody : string :=
  "{" +:+ quoted "message" +:+ ":" +:+ quoted "not found" +:+ "}".

(** The first bytes of that body, for a response that breaks off. *)
Definition partialBody : string := "{" +:+ quoted "message" +:+ ":" +:+ dq +:+ "not".

(** The payload of the tag example and of the delete example. *)
Definition tagPayload : string := "{" +:+ quoted "tag" +:+ ":" +:+ quoted "fall2024" +:+ "}".

(** The text of the list example, an encoded array of one record, and the
    body that delivers it as one JSON string. *)
Definition listText : string :=
  "[{" +:+ quoted "short_url" +:+ ":" +:+ quoted "https://t.ly/c55j" +:+ "}]".
Definition listBody : string := GoJSON.encodeString listText.

(** A short URL with characters that are reserved in a query. *)
Definition reservedShortURL : string := "https://t.ly/a b&c=d#e".

Definition resetByPeer : error := errors_New "read: connection reset by peer".

(** The runtimes of the examples, by the answer of the transport. *)
Definition rtTag : Runtime := runtime (answer 200 tagBody).
Definition rtNotFound : Runtime := runtime (answer 404 notFoundBody).
Definition rtBroken : Runtime := runtime (brokenAnswer 404 partialBody resetByPeer).
Definition rtList : Runtime := runtime (answer 200 listBody).

(** A value [json.Marshal] refuses: a channel. *)
Inductive chan : Type := make_chan.
#[export] Instance chanMarshaler : Marshaler chan :=
  λ _, Err (errors_New "json: unsupported type: chan int").

(** The request of the contract for the token of the examples. *)
Definition request (method path body : string) : http.Request :=
  contractRequest "secret-token" method ("https://api.t.ly" +:+ path) body.

(** A transport that cannot reach the service. *)
Definition refused : error :=
  errors_New ("Get " +:+ quoted "https://api.t.ly/api/v1/link/pixel/12345" +:+
              ": dial tcp 203.0.113.1:443: connect: connection refused").
Definition rtDown : Runtime := runtime (Err refused).

(** A short URL that ends with a line feed, and the error of
    [http.NewRequest] for the URL of its lookup. *)
Definition controlShortURL : string :=
  "https://t.ly/c55j" +:+ String (ascii_of_nat 10) "".
Definition controlError : error :=
  errors_New ("parse " +:+
              quoted ("https://api.t.ly/api/v1/link?short_url=" +:+ controlShortURL) +:+
              ": net/url: invalid control character in URL").

(** A list of one tag, and a tag whose id is a string. *)
Definition tagsBody : string := "[" +:+ tagBody +:+ "]".
Definition badTagBody : string :=
  "{" +:+ quoted "tag" +:+ ":" +:+ quoted "fall2024" +:+ ","
      +:+ quoted "id" +:+ ":" +:+ quoted "one" +:+ "}".
Definition badTagError : error :=
  errors_New "json: cannot unmarshal string into Go struct field Tag.id of type int".
Definition rtTags : Runtime := runtime (answer 200 tagsBody).
Definition rtBadTag : Runtime := runtime (answer 200 badTagBody).

(** The update of the pixel 12345 and its serialized form. *)
Definition pixelUpdate : PixelUpdateRequest :=
  mkPixelUpdateRequest 12345 "UpdatedPixel" "GTM-xxxx" "googleTagManager".
Definition pixelUpdateBody : string :=
  "{" +:+ quoted "id" +:+ ":12345," +:+ quoted "name" +:+ ":" +:+ quoted "UpdatedPixel" +:+ ","
      +:+ quoted "pixel_id" +:+ ":" +:+ quoted "GTM-xxxx" +:+ ","
      +:+ quoted "pixel_type" +:+ ":" +:+ quoted "googleTagManager" +:+ "}".

(** The filter whose one key and value are empty strings. *)
Definition blankFilter : gmap string string := {[ "" := "" ]}.

(** The answer 500 with the body of the answer 404. *)
Definition rtServerError : Runtime := runtime (answer 500 notFoundBody).

(** A filter with two entries. *)
Definition twoFilters : gmap string string :=
  <[ "tag_ids" := "1,2" ]> {[ "search" := "amazon" ]}.

End Demo.

(** * Properties *)

(** ** The scanner of [GoJSON] never runs out of fuel *)

Module GoJSONFacts.
Import GoJSON.

(** Skipping white space does not lengthen the input. *)
Lemma skipSpace_length (s : string) : (String.length (skipSpace s) ≤ String.length s)%nat.
Proof.
  induction s as [|c s IH]; simpl; [lia|].
  destruct (isSpace c); simpl; lia.
Qed.

(** A string literal uses up at least its closing quote. *)
Lemma scanString_shorter (n : nat) :
  ∀ (s : string) (skip : nat) (t r : string),
    (String.length s ≤ n)%nat →
    scanString s skip = Done t r → (String.length r < String.length s)%nat.
Proof.
  induction n as [|n IH]; intros s skip t r Hn.
  - destruct s; [discriminate|simpl in Hn; lia].
  - destruct s as [|c rest]; [discriminate|]. simpl in Hn.
    cbn [scanString]. destruct skip as [|skip].
    + destruct (code c =? 34)%N; [intros [= <- <-]; simpl; lia|].
      destruct (code c <? 32)%N; [discriminate|].
      destruct (code c =? 92)%N.
      * destruct rest as [|e rest1]; [discriminate|]. simpl in Hn.
        destruct (code e =? 117)%N.
        -- destruct rest1 as [|h1 [|h2 [|h3 [|h4 rest2]]]];
             try (destruct (forallb _ _); discriminate).
           destruct (getu4 h1 h2 h3 h4) as [u|]; [|discriminate].
           destruct (isSurrogate u);
             [destruct (lowSurrogateAhead rest2); [destruct (isHighSurrogate u)|]|];
           match goal with
           | |- context [scanString ?a ?b] =>
               destruct (scanString a b) as [t' r'| |] eqn:E; try discriminate
           end;
           (apply IH in E; [|simpl in *; lia]);
           intros [= <- <-]; simpl in *; lia.
        -- destruct (simpleEscape e); [|discriminate].
           destruct (scanString (String e rest1) 1) as [t' r'| |] eqn:E; try discriminate.
           apply IH in E; [|simpl; lia].
           intros [= <- <-]. simpl in *. lia.
      * destruct (scanString rest 0) as [t' r'| |] eqn:E; try discriminate.
        apply IH in E; [|lia]. intros [= <- <-]. simpl. lia.
    + intros E. apply IH in E; [|lia]. simpl. lia.
Qed.

(** What follows a run of digits is no longer than the input. *)
Lemma digits_length (s ds r : string) :
  digits s = (ds, r) → (String.length r ≤ String.length s)%nat.
Proof.
  revert ds r. induction s as [|c s IH]; intros ds r; simpl.
  - intros [= <- <-]. simpl. lia.
  - destruct (isDecimalDigit c).
    + destruct (digits s) as [ds' r'] eqn:E. intros [= <- <-].
      specialize (IH _ _ eq_refl). lia.
    + intros [= <- <-]. simpl. lia.
Qed.

Lemma digits1_length (s ds r : string) :
  digits1 s = Done ds r → (String.length r ≤ String.length s)%nat.
Proof.
  unfold digits1. destruct (digits s) as [ds' r'] eqn:E.
  apply digits_length in E.
  destruct ds'; [destruct r'; discriminate|]. by intros [= <- <-].
Qed.

Lemma scanFraction_length (s t r : string) :
  scanFraction s = Done t r → (String.length r ≤ String.length s)%nat.
Proof.
  unfold scanFraction. destruct s as [|c rest]; [by intros [= <- <-]|].
  destruct (code c =? 46)%N; [|by intros [= <- <-]].
  destruct (digits1 rest) as [ds r'| |] eqn:E; try discriminate.
  apply digits1_length in E. intros [= <- <-]. simpl. lia.
Qed.

Lemma scanExponent_length (s t r : string) :
  scanExponent s = Done t r → (String.length r ≤ String.length s)%nat.
Proof.
  unfold scanExponent. destruct s as [|c rest]; [by intros [= <- <-]|].
  destruct (_ || _); [|by intros [= <- <-]].
  destruct rest as [|g r0].
  - simpl. discriminate.
  - destruct (_ || _).
    + destruct (digits1 r0) as [ds r'| |] eqn:E; try discriminate.
      apply digits1_length in E. intros [= <- <-]. simpl. lia.
    + destruct (digits1 (String g r0)) as [ds r'| |] eqn:E; try discriminate.
      apply digits1_length in E. intros [= <- <-]. simpl in *. lia.
Qed.

(** A number literal uses up at least one byte. *)
Lemma scanNumber_shorter (s lit r : string) :
  scanNumber s = Done lit r → (String.length r < String.length s)%nat.
Proof.
  unfold scanNumber.
  assert (Hgo : ∀ sign s1,
            match s1 with
            | EmptyString => More
            | String c r1 =>
                if negb (isDecimalDigit c) then Bad
                else
                  let '(int, r2) :=
                    if (code c =? 48)%N then (String c "", r1)
                    else let '(ds, r) := digits r1 in (String c ds, r) in
                  match scanFraction r2 with
                  | Done frac r3 =>
                      match scanExponent r3 with
                      | Done exp r4 => Done (sign +:+ int +:+ frac +:+ exp) r4
                      | More => More
                      | Bad => Bad
                      end
                  | More => More
                  | Bad => Bad
                  end
            end = Done lit r → (String.length r < String.length s1)%nat).
  { intros sign [|c r1]; [discriminate|].
    destruct (negb (isDecimalDigit c)); [discriminate|].
    destruct (code c =? 48)%N.
    - destruct (scanFraction r1) as [frac r3| |] eqn:Ef; try discriminate.
      destruct (scanExponent r3) as [exp r4| |] eqn:Ee; try discriminate.
      apply scanFraction_length in Ef. apply scanExponent_length in Ee.
      intros [= <- <-]. simpl. lia.
    - destruct (digits r1) as [ds r2] eqn:Ed.
      destruct (scanFraction r2) as [frac r3| |] eqn:Ef; try discriminate.
      destruct (scanExponent r3) as [exp r4| |] eqn:Ee; try discriminate.
      apply digits_length in Ed.
      apply scanFraction_length in Ef. apply scanExponent_length in Ee.
      intros [= <- <-]. simpl. lia. }
  destruct s as [|c r0]; [discriminate|].
  destruct (code c =? 45)%N.
  - intros E. pose proof (Hgo (String c "") r0 E). simpl. lia.
  - intros E. exact (Hgo "" (String c r0) E).
Qed.

Lemma scanWord_length (w s r : string) (u : unit) :
  scanWord w s = Done u r → (String.length r ≤ String.length s)%nat.
Proof.
  revert s. induction w as [|a w IH]; intros s; simpl.
  - by intros [= <- <-].
  - destruct s as [|c rest]; [discriminate|].
    destruct (Ascii.eqb a c); [|discriminate].
    intros E. apply IH in E. simpl. lia.
Qed.

(** Turns every successful scan among the hypotheses into the bound on the
    length of its rest. *)
Ltac scan_facts IHv IHe IHm :=
  repeat match goal with
    | H : skipSpace ?s = String _ _ |- _ =>
        let L := fresh "L" in
        pose proof (skipSpace_length s) as L; rewrite H in L; simpl in L; clear H
    | H : scanString ?s _ = Done _ _ |- _ =>
        apply (scanString_shorter (String.length s) s) in H; [|lia]
    | H : scanNumber _ = Done _ _ |- _ => apply scanNumber_shorter in H
    | H : scanWord _ _ = Done _ _ |- _ => apply scanWord_length in H
    | H : scanValue _ _ = Done _ _ |- _ => apply IHv in H
    | H : scanElems _ _ = Done _ _ |- _ => apply IHe in H
    | H : scanMembers _ _ = Done _ _ |- _ => apply IHm in H
    end.

(** A value, the elements of an array and the members of an object each use
    up at least one byte, whatever the fuel. *)
Lemma scan_shorter (fuel : nat) :
  (∀ s v r, scanValue fuel s = Done v r → (String.length r < String.length s)%nat) ∧
  (∀ s vs r, scanElems fuel s = Done vs r → (String.length r < String.length s)%nat) ∧
  (∀ s ms r, scanMembers fuel s = Done ms r → (String.length r < String.length s)%nat).
Proof.
  induction fuel as [|f (IHv & IHe & IHm)]; [by repeat split|].
  split; [|split]; intros s x r; cbn [scanValue scanElems scanMembers];
    intros E; repeat case_match; simplify_eq; scan_facts IHv IHe IHm;
    simpl in *; lia.
Qed.

(** Adds a fact unless it is already among the hypotheses. *)
Ltac learn H :=
  let T := type of H in
  match goal with
  | _ : T |- _ => fail 1
  | _ => pose proof H
  end.

Lemma skipSpace_cons (s : string) (c : ascii) (r : string) :
  skipSpace s = String c r → (String.length r < String.length s)%nat.
Proof. intros E. pose proof (skipSpace_length s) as L. rewrite E in L. simpl in L. lia. Qed.

Lemma scanString_shorter' (s : string) (skip : nat) (t r : string) :
  scanString s skip = Done t r → (String.length r < String.length s)%nat.
Proof. apply (scanString_shorter (String.length s)). lia. Qed.

Ltac len_facts :=
  repeat match goal with
    | H : skipSpace _ = String _ _ |- _ => learn (skipSpace_cons _ _ _ H)
    | H : scanString _ _ = Done _ _ |- _ => learn (scanString_shorter' _ _ _ _ H)
    | H : scanValue ?f _ = Done _ _ |- _ => learn (proj1 (scan_shorter f) _ _ _ H)
    | H : scanElems ?f _ = Done _ _ |- _ => learn (proj1 (proj2 (scan_shorter f)) _ _ _ H)
    | H : scanMembers ?f _ = Done _ _ |- _ => learn (proj2 (proj2 (scan_shorter f)) _ _ _ H)
    end.

(** Two amounts of fuel above twice the length of the input give the same
    scan. *)
Lemma scan_fuel (f1 : nat) :
  ∀ f2,
    (∀ s, (2 * String.length s + 1 ≤ f1)%nat → (2 * String.length s + 1 ≤ f2)%nat →
          scanValue f1 s = scanValue f2 s) ∧
    (∀ s, (2 * String.length s + 2 ≤ f1)%nat → (2 * String.length s + 2 ≤ f2)%nat →
          scanElems f1 s = scanElems f2 s) ∧
    (∀ s, (2 * String.length s + 2 ≤ f1)%nat → (2 * String.length s + 2 ≤ f2)%nat →
          scanMembers f1 s = scanMembers f2 s).
Proof.
  induction f1 as [|f1 IH]; intros f2; [repeat split; intros; lia|].
  destruct f2 as [|f2]; [repeat split; intros; lia|].
  destruct (IH f2) as (IHv & IHe & IHm). clear IH.
  split; [|split]; intros s H1 H2; cbn [scanValue scanElems scanMembers];
    repeat case_match; simplify_eq; try reflexivity; len_facts; simpl in *;
    repeat match goal with
      | H : scanValue f1 ?x = _ |- _ => rewrite (IHv x) in H by lia
      | H : scanElems f1 ?x = _ |- _ => rewrite (IHe x) in H by lia
      | H : scanMembers f1 ?x = _ |- _ => rewrite (IHm x) in H by lia
      end;
    congruence.
Qed.

(** More fuel than [fuelFor] gives does not change what the scanner
    answers. *)
Lemma scanValue_enough_fuel (s : string) (extra : nat) :
  scanValue (fuelFor s + extra) s = scanValue (fuelFor s) s.
Proof. apply scan_fuel; unfold fuelFor; lia. Qed.

End GoJSONFacts.

(** ** The dispatcher *)

Section Dispatcher.
Context `{Runtime} {B R : Type} `{Marshaler B} `{Unmarshaler R}.

(** The three calls of [Header.Set] on the empty header give the header of
    the contract. *)
Lemma three_headers (token method url buf : string) :
  http.Request_setHeader "Accept" "application/json"
    (http.Request_setHeader "Content-Type" "application/json"
       (http.Request_setHeader "Authorization" ("Bearer " +:+ token)
          {| http.Method := method; http.URL := url;
             http.Hdr := ∅; http.Body := buf |}))
  = {| http.Method := method; http.URL := url;
       http.Hdr := contractHeader token; http.Body := buf |}.
Proof.
  unfold contractHeader, http.Request_setHeader, http.Header_Set; simpl.
  apply (f_equal (λ h, http.mkRequest method url h buf)).
  change (http.CanonicalMIMEHeaderKey "Accept") with "Accept".
  change (http.CanonicalMIMEHeaderKey "Content-Type") with "Content-Type".
  change (http.CanonicalMIMEHeaderKey "Authorization") with "Authorization".
  apply map_eq; intros k.
  rewrite !lookup_insert, lookup_empty.
  repeat case_decide; simplify_eq; done.
Qed.

(** The dispatcher as one case analysis: what it returns and the state it
    leaves, for every input. *)
Lemma doRequest_eq (method path query : string) (body : option B)
    (result : option R) (s : State) :
  doRequest method path query body result s =
  let c := self s in
  let url := contractURL (BaseURL c) path query in
  match payload body with
  | Err e => ((result, Some e), s)
  | Ok buf =>
      match NewRequest_invalid method url with
      | Some e => ((result, Some e), s)
      | None =>
          let req := contractRequest (APIKey c) method url buf in
          match http.Transport (Client' c) (sent s) req with
          | Err e => ((result, Some e), afterSend s req)
          | Ok resp =>
              if decide (success (http.StatusCode resp)) then
                match result with
                | Some slot =>
                    let '(v, err) := json_Decode (http.RespBody resp) slot in
                    ((Some v, err), afterSend s req)
                | None => ((None, None), afterSend s req)
                end
              else
                ((result,
                  Some (fmt.Errorf
                          ("API error: " +:+ ioutil.delivered (http.RespBody resp)))),
                 afterSend s req)
          end
      end
  end.
Proof.
  unfold doRequest, payload, contractURL, contractRequest, http_NewRequest.
  unfold mbind, M_bind, mret, M_ret, getSelf, Do, http.Client_Do, afterSend.
  cbv zeta.
  destruct (String.eqb query ""); cbn [negb];
    (destruct body as [b|]; [destruct (json_Marshal b) as [buf|e]; [|reflexivity]|]);
    (destruct (NewRequest_invalid method _) as [e|]; [reflexivity|]);
    rewrite three_headers;
    (match goal with
     | |- context [http.Transport ?h ?l ?r] =>
         destruct (http.Transport h l r) as [resp|e]; [|reflexivity]
     end);
    (destruct (decide (success (http.StatusCode resp))) as [Hs|Hs];
     unfold success in Hs;
     [ replace ((http.StatusCode resp <? 200) || (http.StatusCode resp >=? 300))
         with false by (symmetry; apply orb_false_intro; lia);
       destruct result as [slot|]; [destruct (json_Decode _ slot)|]; reflexivity
     | replace ((http.StatusCode resp <? 200) || (http.StatusCode resp >=? 300))
         with true by (symmetry; apply orb_true_iff; lia);
       reflexivity ]).
Qed.

(** A computation that leaves the state as it was has handed over nothing. *)
Lemma sentBy_unchanged {A : Type} (m : M A) (s : State) :
  (m s).2 = s → sentBy m s = [].
Proof. unfold sentBy. intros ->. by rewrite drop_all. Qed.

(** A computation that leaves the state one request longer has handed over
    that request. *)
Lemma sentBy_afterSend {A : Type} (m : M A) (s : State) (req : http.Request) :
  (m s).2 = afterSend s req → sentBy m s = [req].
Proof. unfold sentBy. intros ->. simpl. by rewrite drop_app_length. Qed.

(** The requests one call of the dispatcher hands to the transport: none
    when the payload cannot be serialized or the request cannot be built,
    else the one request of the contract. *)
Lemma doRequest_sent (method path query : string) (body : option B)
    (result : option R) (s : State) :
  sentBy (doRequest method path query body result) s =
  match payload body with
  | Err _ => []
  | Ok buf =>
      let url := contractURL (BaseURL (self s)) path query in
      match NewRequest_invalid method url with
      | Some _ => []
      | None => [contractRequest (APIKey (self s)) method url buf]
      end
  end.
Proof.
  cbv zeta.
  destruct (payload body) as [buf|e] eqn:Hp.
  - destruct (NewRequest_invalid method _) as [e|] eqn:Hv.
    + apply sentBy_unchanged. rewrite doRequest_eq. cbv zeta. by rewrite Hp, Hv.
    + apply sentBy_afterSend. rewrite doRequest_eq. cbv zeta. rewrite Hp, Hv.
      destruct (http.Transport _ _ _) as [resp|e]; [|done].
      destruct (decide _); [|done].
      destruct result as [slot|]; [|done].
      by destruct (json_Decode _ slot).
  - apply sentBy_unchanged. rewrite doRequest_eq. cbv zeta. by rewrite Hp.
Qed.

(** The header of the contract has three keys. *)
Lemma contractHeader_size (token : string) : size (contractHeader token) = 3%nat.
Proof.
  unfold contractHeader; simpl list_to_map.
  rewrite !map_size_insert_None, map_size_empty; [done|..];
    rewrite ?lookup_insert_ne, ?lookup_empty; done.
Qed.

(** C3.  Every request the dispatcher hands to the transport carries exactly
    three headers: [Authorization] with the value "Bearer " followed by the
    configured token, [Content-Type] with [application/json] and [Accept]
    with [application/json]; the payload and the result slot play no part. *)
Theorem C3_three_headers (method path query : string) (body : option B)
    (result : option R) (s : State) (req : http.Request) :
  req ∈ sentBy (doRequest method path query body result) s →
  size (http.Hdr req) = 3%nat ∧
  http.Hdr req !! "Authorization" = Some ["Bearer " +:+ APIKey (self s)] ∧
  http.Hdr req !! "Content-Type" = Some ["application/json"] ∧
  http.Hdr req !! "Accept" = Some ["application/json"] ∧
  http.Hdr req = contractHeader (APIKey (self s)).
Proof.
  rewrite doRequest_sent. cbv zeta.
  destruct (payload body) as [buf|e]; [|by intros ?%elem_of_nil].
  destruct (NewRequest_invalid method _) as [e|]; [by intros ?%elem_of_nil|].
  intros ->%list_elem_of_singleton. simpl http.Hdr.
  split; [apply contractHeader_size|].
  unfold contractHeader; simpl list_to_map.
  repeat split; rewrite ?lookup_insert_eq; try done;
    rewrite ?lookup_insert_ne by done; by rewrite ?lookup_insert_eq.
Qed.

(** C4.  The URL of every request the dispatcher hands to the transport is
    the base address followed by the path, and then by a question mark and
    the query exactly when the query is not empty. *)
Theorem C4_target_url (method path query : string) (body : option B)
    (result : option R) (s : State) (req : http.Request) :
  req ∈ sentBy (doRequest method path query body result) s →
  (query = "" → http.URL req = BaseURL (self s) +:+ path) ∧
  (query ≠ "" → http.URL req = (BaseURL (self s) +:+ path) +:+ "?" +:+ query).
Proof.
  rewrite doRequest_sent. cbv zeta.
  destruct (payload body) as [buf|e]; [|by intros ?%elem_of_nil].
  destruct (NewRequest_invalid method _) as [e|]; [by intros ?%elem_of_nil|].
  intros ->%list_elem_of_singleton. simpl http.URL. unfold contractURL.
  split.
  - by intros ->.
  - intros Hq. by destruct (String.eqb_spec query "").
Qed.

End Dispatcher.

Section Operations.
Context `{Runtime}.
Context `{Marshaler PixelCreateRequest} `{Marshaler PixelUpdateRequest}
        `{Marshaler ShortLinkCreateRequest} `{Marshaler ShortLinkUpdateRequest}
        `{Marshaler ExpandRequest} `{Marshaler BulkShortenRequest}
        `{Marshaler (gmap string string)}.
Context `{Unmarshaler Pixel} `{Unmarshaler (slice Pixel)}
        `{Unmarshaler ShortLink} `{Unmarshaler ExpandResponse}
        `{Unmarshaler string} `{Unmarshaler Stats}
        `{Unmarshaler Tag} `{Unmarshaler (slice Tag)}.
Context {B R : Type} `{Marshaler B} `{Unmarshaler R}.

(** Unfolds an operation down to its call of the dispatcher. *)
Ltac unfold_ops :=
  unfold run, CreatePixel, ListPixels, GetPixel, UpdatePixel, DeletePixel,
    CreateShortLink, GetShortLink, UpdateShortLink, DeleteShortLink,
    ExpandShortLink, ListShortLinks, BulkShortenLinks, GetStats,
    ListTags, CreateTag, GetTag, UpdateTag, DeleteTag;
  unfold mbind, M_bind, mret, M_ret; cbv zeta.

(** Splits a goal about one call of the dispatcher into the cases of
    [doRequest_eq]. *)
Ltac dispatch_cases :=
  rewrite doRequest_eq; cbv zeta;
  repeat match goal with
    | |- context [payload ?b] =>
        let Hp := fresh "Hpayload" in
        destruct (payload b) as [?|?] eqn:Hp; try discriminate Hp
    | |- context [NewRequest_invalid ?m ?u] =>
        let Hv := fresh "Hvalid" in
        destruct (NewRequest_invalid m u) as [?|] eqn:Hv
    | |- context [http.Transport ?h ?l ?r] =>
        let Ht := fresh "Htransport" in
        destruct (http.Transport h l r) as [?|?] eqn:Ht
    | |- context [decide (success ?c)] =>
        destruct (decide (success c))
    | |- context [json_Decode ?r ?slot] =>
        let Hd := fresh "Hdecode" in
        destruct (json_Decode r slot) as [? [?|]] eqn:Hd
    end;
  cbn [fst snd default].

(** The state a call leaves: the credential context as it was, and at most
    one more request in the log. *)
Lemma run_state (call : Call) (s : State) :
  (run call s).2 = s ∨ ∃ req, (run call s).2 = afterSend s req.
Proof.
  destruct call; unfold_ops; dispatch_cases; eauto.
Qed.

(** The same for the dispatcher. *)
Lemma doRequest_state (method path query : string) (body : option B)
    (result : option R) (s : State) :
  (doRequest method path query body result s).2 = s ∨
  ∃ req, (doRequest method path query body result s).2 = afterSend s req.
Proof. destruct result; dispatch_cases; eauto. Qed.

(** A sequence of calls leaves the credential context as it was. *)
Lemma runAll_self (calls : list Call) (s : State) :
  self (runAll calls s) = self s.
Proof.
  revert s. induction calls as [|call calls IH]; intros s; [done|].
  simpl. rewrite IH.
  destruct (run_state call s) as [->|[req ->]]; done.
Qed.

(** C9.  No operation writes to the credential context: the dispatcher and
    each of the public operations leave [APIKey], [BaseURL] and the
    transport handle as they found them, so after any sequence of calls on a
    client made by [NewClient] the three fields are those [NewClient] set. *)
Theorem C9_credentials_unchanged :
  (∀ (method path query : string) (body : option B) (result : option R) (s : State),
     self (doRequest method path query body result s).2 = self s) ∧
  (∀ (call : Call) (s : State), self (run call s).2 = self s) ∧
  (∀ (apiKey : string) (calls : list Call) (log : list http.Request),
     let c := self (runAll calls {| self := NewClient apiKey; sent := log |}) in
     APIKey c = apiKey ∧
     BaseURL c = "https://api.t.ly" ∧
     Client' c = {| http.Transport := DefaultTransport |}).
Proof.
  split; [|split].
  - intros method path query body result s.
    destruct (doRequest_state method path query body result s) as [->|[req ->]]; done.
  - intros call s. destruct (run_state call s) as [->|[req ->]]; done.
  - intros apiKey calls log c. subst c. by rewrite runAll_self.
Qed.

(** C10.  An operation that returns a pointer returns a pointer that is not
    nil exactly when its error is nil, and a nil pointer exactly when its
    error is not nil; [ListShortLinks] and [BulkShortenLinks] return the
    empty string whenever their error is not nil. *)
Theorem C10_result_xor_error (call : Call) (s : State) :
  (returnsPointer call = true →
     (isPointer (run call s).1.1 = true ↔ (run call s).1.2 = None) ∧
     (isNilPointer (run call s).1.1 = true ↔ (run call s).1.2 ≠ None)) ∧
  (∀ queryParams, call = CallListShortLinks queryParams →
     (run call s).1.2 ≠ None → (run call s).1.1 = Text "") ∧
  (∀ reqData, call = CallBulkShortenLinks reqData →
     (run call s).1.2 ≠ None → (run call s).1.1 = Text "").
Proof.
  split; [|split].
  - destruct call; simpl returnsPointer; intros Hp; try discriminate Hp;
      unfold_ops;
      match goal with
      | |- context [doRequest ?m ?p ?q ?b ?r s] =>
          destruct (doRequest m p q b r s) as [[slot [e|]] s']
      end; simpl; split; split; intros; congruence.
  - intros queryParams -> Herr. revert Herr. unfold_ops.
    match goal with
    | |- context [doRequest ?m ?p ?q ?b ?r s] =>
        destruct (doRequest m p q b r s) as [[slot [e|]] s']
    end; simpl; congruence.
  - intros reqData -> Herr. revert Herr. unfold_ops.
    match goal with
    | |- context [doRequest ?m ?p ?q ?b ?r s] =>
        destruct (doRequest m p q b r s) as [[slot [e|]] s']
    end; simpl; congruence.
Qed.

(** A call that returns no error has handed over a request. *)
Lemma run_success_sends (call : Call) (s : State) :
  (run call s).1.2 = None → ∃ req, (run call s).2 = afterSend s req.
Proof.
  destruct call; unfold_ops; dispatch_cases; intros Herr;
    try discriminate Herr; eauto.
Qed.

(** The same for the dispatcher. *)
Lemma doRequest_success_sends (method path query : string) (body : option B)
    (result : option R) (s : State) :
  (doRequest method path query body result s).1.2 = None →
  ∃ req, (doRequest method path query body result s).2 = afterSend s req.
Proof.
  destruct result; dispatch_cases; intros Herr; try discriminate Herr; eauto.
Qed.

(** C5.  A call hands at most one request to the transport, whatever its
    outcome, so no failure is retried; a call that returns no error has
    handed over exactly one; and when the payload cannot be serialized the
    dispatcher returns that error with nothing handed over and the state as
    it was. *)
Theorem C5_at_most_one_send :
  (∀ (method path query : string) (body : option B) (result : option R) (s : State),
     (length (sentBy (doRequest method path query body result) s) ≤ 1)%nat ∧
     ((doRequest method path query body result s).1.2 = None →
      length (sentBy (doRequest method path query body result) s) = 1%nat)) ∧
  (∀ (method path query : string) (b : B) (result : option R) (s : State) (e : error),
     json_Marshal b = Err e →
     doRequest method path query (Some b) result s = ((result, Some e), s) ∧
     sentBy (doRequest method path query (Some b) result) s = []) ∧
  (∀ (call : Call) (s : State),
     (length (sentBy (run call) s) ≤ 1)%nat ∧
     ((run call s).1.2 = None → length (sentBy (run call) s) = 1%nat)).
Proof.
  split; [|split].
  - intros method path query body result s. split.
    + destruct (doRequest_state method path query body result s) as [E|[req E]].
      * rewrite (sentBy_unchanged _ _ E). simpl. lia.
      * rewrite (sentBy_afterSend _ _ _ E). simpl. lia.
    + intros Herr.
      destruct (doRequest_success_sends _ _ _ _ _ _ Herr) as [req E].
      by rewrite (sentBy_afterSend _ _ _ E).
  - intros method path query b result s e Hm.
    assert (E : doRequest method path query (Some b) result s = (result, Some e, s)).
    { rewrite doRequest_eq. cbv zeta. unfold payload. by rewrite Hm. }
    split; [exact E|]. apply sentBy_unchanged. by rewrite E.
  - intros call s. split.
    + destruct (run_state call s) as [E|[req E]].
      * rewrite (sentBy_unchanged _ _ E). simpl. lia.
      * rewrite (sentBy_afterSend _ _ _ E). simpl. lia.
    + intros Herr. destruct (run_success_sends _ _ Herr) as [req E].
      by rewrite (sentBy_afterSend _ _ _ E).
Qed.

(** Concatenation of strings is associative. *)
Lemma append_assoc (a b c : string) : (a +:+ b) +:+ c = a +:+ (b +:+ c).
Proof.
  induction a as [|x a IH]; [reflexivity|].
  change (String x ((a +:+ b) +:+ c) = String x (a +:+ (b +:+ c))).
  by rewrite IH.
Qed.

Lemma contractURL_empty (base path : string) :
  contractURL base path "" = base +:+ path.
Proof. reflexivity. Qed.


(** The continuation of every operation only returns, so an operation hands
    to the transport what its call of the dispatcher does. *)
Lemma sentBy_bind {A C : Type} (m : M A) (k : A → M C) (s : State) :
  (∀ a s', (k a s').2 = s') → sentBy (m ≫= k) s = sentBy m s.
Proof.
  intros Hk. unfold sentBy, mbind, M_bind.
  destruct (m s) as [a s']. by rewrite Hk.
Qed.

(** The loop of [ListShortLinks] joins the entries with ampersands. *)
Lemma joinParams_more (entries : list (string * string)) (query item : string) :
  joinParams entries (query +:+ item) false =
  query +:+ String.concat "&" (item :: map (λ kv, kv.1 +:+ "=" +:+ kv.2) entries).
Proof.
  revert query item. induction entries as [|[k v] rest IH]; intros query item.
  - reflexivity.
  - cbn [joinParams negb map fst snd]. rewrite IH.
    cbn [String.concat map]. by rewrite !append_assoc.
Qed.

Lemma joinParams_concat (entries : list (string * string)) :
  joinParams entries "" true =
  String.concat "&" (map (λ kv, kv.1 +:+ "=" +:+ kv.2) entries).
Proof.
  destruct entries as [|[k v] rest]; [reflexivity|].
  cbn [joinParams negb]. by rewrite joinParams_more.
Qed.

(** A map with one entry is visited in one way only. *)
Lemma rangeOrder_singleton (k v : string) : rangeOrder {[ k := v ]} = [(k, v)].
Proof.
  apply Permutation_singleton_r.
  rewrite rangeOrder_perm. by rewrite map_to_list_singleton.
Qed.

(** C8.  For every [shortURL], the request of [GetShortLink] and of
    [GetStats] has as its URL the base address, the path, a question mark
    and then "short_url=" followed by [shortURL] byte for byte; the
    operations hand that URL to [http.NewRequest] whatever [shortURL] is,
    and the request is sent whenever [http.NewRequest] accepts it. *)
Theorem C8_short_url_query (shortURL : string) (s : State) :
  (∀ req, req ∈ sentBy (GetShortLink shortURL) s →
     http.URL req =
       (BaseURL (self s) +:+ "/api/v1/link") +:+ "?" +:+ "short_url=" +:+ shortURL) ∧
  (∀ req, req ∈ sentBy (GetStats shortURL) s →
     http.URL req =
       (BaseURL (self s) +:+ "/api/v1/link/stats") +:+ "?" +:+ "short_url=" +:+ shortURL) ∧
  (NewRequest_invalid "GET"
     ((BaseURL (self s) +:+ "/api/v1/link") +:+ "?" +:+ "short_url=" +:+ shortURL) = None →
   ∃ req, sentBy (GetShortLink shortURL) s = [req]) ∧
  (NewRequest_invalid "GET"
     ((BaseURL (self s) +:+ "/api/v1/link/stats") +:+ "?" +:+ "short_url=" +:+ shortURL) = None →
   ∃ req, sentBy (GetStats shortURL) s = [req]).
Proof.
  assert (Hs : ∀ path (result : option ShortLink),
            sentBy (doRequest (B:=Nil) "GET" path ("short_url=" +:+ shortURL) None result) s
            = match NewRequest_invalid "GET"
                      ((BaseURL (self s) +:+ path) +:+ "?" +:+ "short_url=" +:+ shortURL) with
              | Some _ => []
              | None => [contractRequest (APIKey (self s)) "GET"
                           ((BaseURL (self s) +:+ path) +:+ "?" +:+ "short_url=" +:+ shortURL) ""]
              end).
  { intros path result. rewrite doRequest_sent. reflexivity. }
  assert (Ht : ∀ path (result : option Stats),
            sentBy (doRequest (B:=Nil) "GET" path ("short_url=" +:+ shortURL) None result) s
            = match NewRequest_invalid "GET"
                      ((BaseURL (self s) +:+ path) +:+ "?" +:+ "short_url=" +:+ shortURL) with
              | Some _ => []
              | None => [contractRequest (APIKey (self s)) "GET"
                           ((BaseURL (self s) +:+ path) +:+ "?" +:+ "short_url=" +:+ shortURL) ""]
              end).
  { intros path result. rewrite doRequest_sent. reflexivity. }
  assert (Eg : sentBy (GetShortLink shortURL) s
               = sentBy (doRequest (B:=Nil) "GET" "/api/v1/link"
                           ("short_url=" +:+ shortURL) None (Some ShortLink_zero)) s).
  { unfold GetShortLink. cbv zeta. apply sentBy_bind.
    intros [slot [e|]] s'; reflexivity. }
  assert (Et : sentBy (GetStats shortURL) s
               = sentBy (doRequest (B:=Nil) "GET" "/api/v1/link/stats"
                           ("short_url=" +:+ shortURL) None (Some Stats_zero)) s).
  { unfold GetStats. cbv zeta. apply sentBy_bind.
    intros [slot [e|]] s'; reflexivity. }
  rewrite Eg, Et, Hs, Ht.
  split; [|split; [|split]].
  - intros req. destruct (NewRequest_invalid _ _); [by intros ?%elem_of_nil|].
    by intros ->%list_elem_of_singleton.
  - intros req. destruct (NewRequest_invalid _ _); [by intros ?%elem_of_nil|].
    by intros ->%list_elem_of_singleton.
  - intros ->. eauto.
  - intros ->. eauto.
Qed.

Lemma drop_sent_unchanged (s : State) : drop (length (sent s)) (sent s) = [].
Proof. apply drop_all. Qed.

Lemma drop_sent_afterSend (s : State) (req : http.Request) :
  drop (length (sent s)) (sent (afterSend s req)) = [req].
Proof. simpl. by rewrite drop_app_length. Qed.

(** What the dispatcher returns once its request has been handed over and
    the transport has answered with a response. *)
Lemma doRequest_answered (method path query : string) (body : option B)
    (result : option R) (s : State) (req : http.Request) (resp : http.Response) :
  sentBy (doRequest method path query body result) s = [req] →
  http.Transport (Client' (self s)) (sent s) req = Ok resp →
  doRequest method path query body result s =
  (if decide (success (http.StatusCode resp)) then
     match result with
     | Some slot => (Some (json_Decode (http.RespBody resp) slot).1,
                     (json_Decode (http.RespBody resp) slot).2)
     | None => (None, None)
     end
   else
     (result,
      Some (fmt.Errorf ("API error: " +:+ ioutil.delivered (http.RespBody resp)))),
   afterSend s req).
Proof.
  rewrite doRequest_sent, doRequest_eq. cbv zeta.
  destruct (payload body) as [buf|e]; [|discriminate].
  destruct (NewRequest_invalid method _) as [e|]; [discriminate|].
  intros [= <-] ->.
  destruct (decide _); [|done].
  destruct result as [slot|]; [|done].
  by destruct (json_Decode _ slot).
Qed.

(** What the dispatcher returns once its request has been handed over and
    the transport has failed. *)
Lemma doRequest_transport_failed (method path query : string) (body : option B)
    (result : option R) (s : State) (req : http.Request) (e : error) :
  sentBy (doRequest method path query body result) s = [req] →
  http.Transport (Client' (self s)) (sent s) req = Err e →
  doRequest method path query body result s = ((result, Some e), afterSend s req).
Proof.
  rewrite doRequest_sent, doRequest_eq. cbv zeta.
  destruct (payload body) as [buf|e']; [|discriminate].
  destruct (NewRequest_invalid method _) as [e'|]; [discriminate|].
  by intros [= <-] ->.
Qed.

(** Splits a goal about the requests an operation hands over into the cases
    of [doRequest_eq], keeping those in which the request is [req]. *)
Ltac sent_cases :=
  unfold sentBy; unfold_ops; dispatch_cases;
  rewrite ?drop_sent_unchanged, ?drop_sent_afterSend;
  intros; simplify_eq;
  repeat match goal with
    | Ha : http.Transport ?h ?l ?r = _, Hb : http.Transport ?h ?l ?r = _ |- _ =>
        rewrite Ha in Hb
    end;
  simplify_eq; try contradiction.

(** C1, as the code has it.  When the transport answers a call with a status
    outside 200..299, the dispatcher leaves the result slot as it was and
    returns an error whose message is "API error: " followed by the bytes
    read from the response body, whether or not the reading ended with an
    error; the public operation returns no result and that error. *)
Theorem C1_non2xx_error (resp : http.Response)
    (Hbad : ¬ success (http.StatusCode resp)) :
  (∀ (method path query : string) (body : option B) (result : option R)
     (s : State) (req : http.Request),
     sentBy (doRequest method path query body result) s = [req] →
     http.Transport (Client' (self s)) (sent s) req = Ok resp →
     doRequest method path query body result s =
       ((result,
         Some (errors_New ("API error: " +:+ ioutil.delivered (http.RespBody resp)))),
        afterSend s req)) ∧
  (∀ (call : Call) (s : State) (req : http.Request),
     sentBy (run call) s = [req] →
     http.Transport (Client' (self s)) (sent s) req = Ok resp →
     noResult (run call s).1.1 = true ∧
     (run call s).1.2 =
       Some (errors_New ("API error: " +:+ ioutil.delivered (http.RespBody resp)))).
Proof.
  split.
  - intros method path query body result s req Hsent Ht.
    rewrite (doRequest_answered _ _ _ _ _ _ _ _ Hsent Ht).
    by destruct (decide _).
  - intros call s req Hsent Ht. revert Hsent.
    destruct call; sent_cases; done.
Qed.

(** C2.  When the transport answers a call with a status in 200..299, the
    dispatcher decodes the body into the result slot and returns what the
    decoder returns: the decoded value with no error, or the decoder's
    error; with no result slot it returns no error and the body is not
    looked at.  [CreateTag] then returns the decoded [Tag] and no error; with
    the decoder of [GoJSON] that is the record with id 1 and tag "fall2024"
    for the body of the example. *)
Theorem C2_success_decodes (resp : http.Response)
    (Hok : success (http.StatusCode resp)) :
  (∀ (method path query : string) (body : option B) (slot : R)
     (s : State) (req : http.Request),
     sentBy (doRequest method path query body (Some slot)) s = [req] →
     http.Transport (Client' (self s)) (sent s) req = Ok resp →
     doRequest method path query body (Some slot) s =
       ((Some (json_Decode (http.RespBody resp) slot).1,
         (json_Decode (http.RespBody resp) slot).2),
        afterSend s req)) ∧
  (∀ (method path query : string) (body : option B)
     (s : State) (req : http.Request),
     sentBy (doRequest (R:=R) method path query body None) s = [req] →
     http.Transport (Client' (self s)) (sent s) req = Ok resp →
     doRequest (R:=R) method path query body None s =
       ((None, None), afterSend s req)) ∧
  (∀ (tagValue : string) (s : State) (req : http.Request),
     sentBy (CreateTag tagValue) s = [req] →
     http.Transport (Client' (self s)) (sent s) req = Ok resp →
     (∀ t, json_Decode (http.RespBody resp) Tag_zero = (t, None) →
           (CreateTag tagValue s).1 = (Some t, None)) ∧
     (∀ t e, json_Decode (http.RespBody resp) Tag_zero = (t, Some e) →
             (CreateTag tagValue s).1 = (None, Some e))).
Proof.
  split; [|split].
  - intros method path query body slot s req Hsent Ht.
    rewrite (doRequest_answered _ _ _ _ _ _ _ _ Hsent Ht).
    by destruct (decide _).
  - intros method path query body s req Hsent Ht.
    rewrite (doRequest_answered _ _ _ _ _ _ _ _ Hsent Ht).
    by destruct (decide _).
  - intros tagValue s req Hsent Ht. revert Hsent.
    sent_cases; split; intros; unfold id; congruence.
Qed.


(** [ListShortLinks] hands over what its call of the dispatcher does. *)
Lemma ListShortLinks_sent (queryParams : gmap string string) (s : State) :
  sentBy (ListShortLinks queryParams) s =
  sentBy (doRequest (B:=Nil) "GET" "/api/v1/link/list"
            (joinParams (rangeOrder queryParams) "" true) None (Some "")) s.
Proof.
  unfold ListShortLinks. cbv zeta. apply sentBy_bind.
  intros [slot [e|]] s'; reflexivity.
Qed.


(** ** Further properties of the operations *)

(** Every operation is the dispatcher applied to its row of the table. *)
Lemma run_eq (call : Call) (s : State) :
  run call s =
  let url := contractURL (BaseURL (self s)) (callPath call) (callQuery call) in
  match callPayload call with
  | Err e => ((callFailed call, Some e), s)
  | Ok buf =>
      match NewRequest_invalid (callVerb call) url with
      | Some e => ((callFailed call, Some e), s)
      | None =>
          let req := contractRequest (APIKey (self s)) (callVerb call) url buf in
          match http.Transport (Client' (self s)) (sent s) req with
          | Err e => ((callFailed call, Some e), afterSend s req)
          | Ok resp =>
              if decide (success (http.StatusCode resp)) then
                (callResult call (http.RespBody resp), afterSend s req)
              else
                ((callFailed call,
                  Some (fmt.Errorf
                          ("API error: " +:+ ioutil.delivered (http.RespBody resp)))),
                 afterSend s req)
          end
      end
  end.
Proof.
  destruct call; unfold_ops; rewrite doRequest_eq; cbv zeta;
    unfold payload, callPayload, callVerb, callPath, callQuery, callFailed, callResult,
      pointerResult, sliceResult, textResult;
    repeat case_match; simplify_eq; reflexivity.
Qed.

(** The requests a call hands to the transport, read off the table. *)
Lemma run_sent (call : Call) (s : State) :
  sentBy (run call) s =
  match callPayload call with
  | Err _ => []
  | Ok buf =>
      let url := contractURL (BaseURL (self s)) (callPath call) (callQuery call) in
      match NewRequest_invalid (callVerb call) url with
      | Some _ => []
      | None => [contractRequest (APIKey (self s)) (callVerb call) url buf]
      end
  end.
Proof.
  unfold sentBy. rewrite run_eq. cbv zeta.
  destruct (callPayload call) as [buf|e]; [|apply drop_sent_unchanged].
  destruct (NewRequest_invalid _ _) as [e|]; [apply drop_sent_unchanged|].
  destruct (http.Transport _ _ _) as [resp|e]; [|apply drop_sent_afterSend].
  destruct (decide _); apply drop_sent_afterSend.
Qed.

(** No operation passes an empty verb. *)
Lemma callVerb_not_empty (call : Call) : String.eqb (callVerb call) "" = false.
Proof. by destruct call. Qed.

(** What a failed call returns is no result. *)
Lemma callFailed_noResult (call : Call) : noResult (callFailed call) = true.
Proof. by destruct call. Qed.

(** X1.  The request of each operation has the verb, the path and the query
    of its row of the table, the serialized payload of that row as its body
    (nothing for the operations without a payload), and the three headers. *)
Theorem X1_request_table (call : Call) (s : State) (req : http.Request) :
  req ∈ sentBy (run call) s →
  http.Method req = callVerb call ∧
  http.URL req = contractURL (BaseURL (self s)) (callPath call) (callQuery call) ∧
  callPayload call = Ok (http.Body req) ∧
  http.Hdr req = contractHeader (APIKey (self s)).
Proof.
  rewrite run_sent. cbv zeta.
  destruct (callPayload call) as [buf|e]; [|by intros ?%elem_of_nil].
  destruct (NewRequest_invalid _ _) as [e|]; [by intros ?%elem_of_nil|].
  intros ->%list_elem_of_singleton. unfold contractRequest; simpl.
  by rewrite callVerb_not_empty.
Qed.

(** X2.  When the payload of a call cannot be serialized, or
    [http.NewRequest] refuses the verb and the URL, the call returns that
    very error and no result, hands nothing to the transport and leaves the
    state as it was. *)
Theorem X2_failure_before_send (call : Call) (s : State) (e : error) :
  callPayload call = Err e ∨
  (∃ buf, callPayload call = Ok buf ∧
          NewRequest_invalid (callVerb call)
            (contractURL (BaseURL (self s)) (callPath call) (callQuery call)) = Some e) →
  run call s = ((callFailed call, Some e), s) ∧
  noResult (run call s).1.1 = true ∧
  sentBy (run call) s = [].
Proof.
  intros Hfail.
  assert (E : run call s = ((callFailed call, Some e), s)).
  { rewrite run_eq. cbv zeta. destruct Hfail as [->|(buf & -> & ->)]; reflexivity. }
  split; [exact E|]. split.
  - rewrite E. apply callFailed_noResult.
  - apply sentBy_unchanged. by rewrite E.
Qed.

(** X3.  When the transport fails on the request of a call, the call
    returns the transport's error as it is, not wrapped, and no result. *)
Theorem X3_transport_error_verbatim (call : Call) (s : State)
    (req : http.Request) (e : error) :
  sentBy (run call) s = [req] →
  http.Transport (Client' (self s)) (sent s) req = Err e →
  run call s = ((callFailed call, Some e), afterSend s req) ∧
  noResult (run call s).1.1 = true.
Proof.
  rewrite run_sent. intros Hsent Ht.
  assert (E : run call s = ((callFailed call, Some e), afterSend s req)).
  { rewrite run_eq. revert Hsent. cbv zeta.
    destruct (callPayload call) as [buf|e']; [|discriminate].
    destruct (NewRequest_invalid _ _) as [e'|]; [discriminate|].
    intros [= <-]. by rewrite Ht. }
  split; [exact E|]. rewrite E. apply callFailed_noResult.
Qed.

(** X4.  On a 2xx answer every operation returns the body decoded into a
    zero value of its result type: the decoded value and no error when the
    decoder reports none, else no result and the decoder's error; the three
    delete operations return no error without looking at the body. *)
Theorem X4_success_result (call : Call) (s : State)
    (req : http.Request) (resp : http.Response) :
  sentBy (run call) s = [req] →
  http.Transport (Client' (self s)) (sent s) req = Ok resp →
  success (http.StatusCode resp) →
  run call s = (callResult call (http.RespBody resp), afterSend s req).
Proof.
  rewrite run_sent. intros Hsent Ht Hok.
  rewrite run_eq. revert Hsent. cbv zeta.
  destruct (callPayload call) as [buf|e']; [|discriminate].
  destruct (NewRequest_invalid _ _) as [e'|]; [discriminate|].
  intros [= <-]. rewrite Ht. by destruct (decide _).
Qed.

(** A 2xx body the decoder refuses gives no result. *)
Lemma callResult_error (call : Call) (body : ioutil.Reader) :
  (callResult call body).2 ≠ None → (callResult call body).1 = callFailed call.
Proof.
  destruct call; unfold callResult, pointerResult, sliceResult, textResult;
    simpl; repeat case_match; simpl; congruence.
Qed.

(** X5.  Whatever went wrong, an operation that returns an error returns no
    result with it: a nil pointer, a nil slice or the empty string, also when
    the decoder had filled part of the slot before it failed. *)
Theorem X5_error_means_no_result (call : Call) (s : State) :
  (run call s).1.2 ≠ None →
  (run call s).1.1 = callFailed call ∧ noResult (run call s).1.1 = true.
Proof.
  intros Herr.
  assert (E : (run call s).1.1 = callFailed call).
  { revert Herr. rewrite run_eq. cbv zeta.
    destruct (callPayload call) as [buf|e]; [|done].
    destruct (NewRequest_invalid _ _) as [e|]; [done|].
    destruct (http.Transport _ _ _) as [resp|e]; [|done].
    destruct (decide _); [|done].
    simpl. apply callResult_error. }
  split; [exact E|]. rewrite E. apply callFailed_noResult.
Qed.


(** One call adds nothing to the log, or the request of its row. *)
Lemma run_step (call : Call) (s : State) :
  (run call s).2 = s ∨
  ∃ buf, (run call s).2 =
         afterSend s (contractRequest (APIKey (self s)) (callVerb call)
                        (contractURL (BaseURL (self s)) (callPath call) (callQuery call))
                        buf).
Proof.
  rewrite run_eq. cbv zeta.
  destruct (callPayload call) as [buf|e]; [|by left].
  destruct (NewRequest_invalid _ _) as [e|]; [by left|].
  right. exists buf.
  destruct (http.Transport _ _ _) as [resp|e]; [|done].
  by destruct (decide _).
Qed.

(** The URL of the contract starts with the base address. *)
Lemma contractURL_prefix (base path query : string) :
  ∃ rest, contractURL base path query = base +:+ rest.
Proof.
  unfold contractURL. destruct (String.eqb query ""); [by eexists|].
  eexists. apply append_assoc.
Qed.

(** X7.  A sequence of calls only appends to what the transport has been
    handed, at most one request per call, and every request it adds carries
    the three headers with the token of the client and a URL that starts with
    the base address of the client. *)
Theorem X7_sequence_of_calls (calls : list Call) (s : State) :
  ∃ new,
    sent (runAll calls s) = (sent s ++ new)%list ∧
    (length new ≤ length calls)%nat ∧
    Forall (λ req, http.Hdr req = contractHeader (APIKey (self s)) ∧
                   ∃ rest, http.URL req = BaseURL (self s) +:+ rest) new.
Proof.
  revert s. induction calls as [|call calls IH]; intros s.
  - exists []. simpl. by rewrite app_nil_r.
  - simpl. destruct (IH (run call s).2) as (new & Hsent & Hlen & Hall).
    destruct (run_step call s) as [E|[buf E]]; rewrite E in Hsent, Hall |- *.
    + exists new. split; [done|]. split; [lia|done].
    + eexists (_ :: new). simpl in Hsent, Hall.
      split; [by rewrite Hsent, <- app_assoc|].
      split; [simpl; lia|].
      constructor; [|done].
      split; [done|]. apply contractURL_prefix.
Qed.

(** Only empty strings concatenate to the empty string. *)
Lemma append_empty (a b : string) : a +:+ b = "" → a = "" ∧ b = "".
Proof. destruct a; [done|discriminate]. Qed.

(** The query of a filter with an entry is not empty. *)
Lemma concat_params_not_empty (kv : string * string) (rest : list (string * string)) :
  String.concat "&" (map (λ kv, kv.1 +:+ "=" +:+ kv.2) (kv :: rest)) ≠ "".
Proof.
  simpl. destruct (map _ rest).
  - intros [_ ?]%append_empty. discriminate.
  - intros [[_ ?]%append_empty _]%append_empty. discriminate.
Qed.

(** X8.  With an empty filter [ListShortLinks] asks for the bare list path,
    with no question mark; with any other filter, also one whose keys and
    values are empty strings, the URL has the question mark and the entries
    written key=value and joined with ampersands. *)
Theorem X8_list_filter (queryParams : gmap string string) (s : State)
    (req : http.Request) :
  req ∈ sentBy (ListShortLinks queryParams) s →
  (queryParams = ∅ → http.URL req = BaseURL (self s) +:+ "/api/v1/link/list") ∧
  (queryParams ≠ ∅ →
   rangeOrder queryParams ≠ [] ∧
   http.URL req =
     (BaseURL (self s) +:+ "/api/v1/link/list") +:+ "?" +:+
     String.concat "&" (map (λ kv, kv.1 +:+ "=" +:+ kv.2) (rangeOrder queryParams))).
Proof.
  rewrite ListShortLinks_sent, doRequest_sent, joinParams_concat.
  cbv zeta. simpl payload.
  destruct (NewRequest_invalid _ _); [by intros ?%elem_of_nil|].
  intros ->%list_elem_of_singleton. simpl http.URL. split.
  - intros ->.
    assert (E : rangeOrder (∅ : gmap string string) = []).
    { apply Permutation_nil_r. rewrite rangeOrder_perm. by rewrite map_to_list_empty. }
    by rewrite E.
  - intros Hne.
    destruct (rangeOrder queryParams) as [|kv rest] eqn:E.
    + exfalso. apply Hne. apply map_to_list_empty_iff.
      apply Permutation_nil_r. by rewrite <- rangeOrder_perm, E.
    + split; [done|].
      pose proof (concat_params_not_empty kv rest) as Hq.
      unfold contractURL.
      destruct (String.concat "&" _) as [|c q] eqn:Eq; [done|reflexivity].
Qed.

(** X9.  The query of [ListShortLinks] does not tell its filters apart:
    whatever the order in which a map is visited, there are two different
    filters with the same request, since an ampersand or an equals sign in a
    value is written as it is. *)
Theorem X9_filters_confused :
  ∃ m1 m2 : gmap string string,
    m1 ≠ m2 ∧ ∀ s, sentBy (ListShortLinks m1) s = sentBy (ListShortLinks m2) s.
Proof.
  pose (m2 := <[ "search" := "x" ]> {[ "tag_ids" := "1" ]} : gmap string string).
  assert (Hperm : rangeOrder m2 ≡ₚ [("search", "x"); ("tag_ids", "1")]).
  { rewrite rangeOrder_perm. subst m2.
    rewrite map_to_list_insert by done. by rewrite map_to_list_singleton. }
  symmetry in Hperm. apply Permutation_length_2_inv in Hperm.
  destruct Hperm as [E|E].
  - exists {[ "search" := "x&tag_ids=1" ]}, m2. split.
    + intros Heq. apply (f_equal (lookup "tag_ids")) in Heq. subst m2.
      rewrite lookup_singleton_ne, lookup_insert_ne, lookup_singleton_eq in Heq by done.
      discriminate.
    + intros s. rewrite !ListShortLinks_sent, rangeOrder_singleton, E. reflexivity.
  - exists {[ "tag_ids" := "1&search=x" ]}, m2. split.
    + intros Heq. apply (f_equal (lookup "search")) in Heq. subst m2.
      rewrite lookup_singleton_ne, lookup_insert_eq in Heq by done.
      discriminate.
    + intros s. rewrite !ListShortLinks_sent, rangeOrder_singleton, E. reflexivity.
Qed.

(** A common prefix can be cancelled. *)
Lemma append_cancel (a b c : string) : a +:+ b = a +:+ c → b = c.
Proof.
  induction a as [|x a IH]; [done|].
  intros E. apply IH.
  change (String x (a +:+ b) = String x (a +:+ c)) in E. by simplify_eq.
Qed.



(** The empty string is neutral on the right. *)
Lemma append_empty_r (a : string) : a +:+ "" = a.
Proof.
  induction a as [|c a IH]; [done|].
  change (String c (a +:+ "") = String c a). by rewrite IH.
Qed.

(** An element of a joined list of strings is a part of the result. *)
Lemma concat_contains (sep item : string) (items : list string) :
  item ∈ items →
  ∃ before after, String.concat sep items = before +:+ item +:+ after.
Proof.
  induction items as [|x xs IH]; [by intros ?%elem_of_nil|].
  intros [->|Hin]%elem_of_cons.
  - exists "". destruct xs as [|y ys].
    + exists "". simpl. by rewrite append_empty_r.
    + eexists. reflexivity.
  - destruct (IH Hin) as (before & after & E).
    destruct xs as [|y ys]; [by apply elem_of_nil in Hin|].
    exists (x +:+ sep +:+ before), after.
    change (String.concat sep (x :: y :: ys))
      with (x +:+ sep +:+ String.concat sep (y :: ys)).
    rewrite E. by rewrite !append_assoc.
Qed.

(** X11.  Every entry of the filter is in the query of [ListShortLinks]:
    for a key with its value in the map, the URL of the request contains the
    key, an equals sign and the value, after the question mark. *)
Theorem X11_every_filter_entry_sent (queryParams : gmap string string)
    (k v : string) (s : State) (req : http.Request) :
  queryParams !! k = Some v →
  req ∈ sentBy (ListShortLinks queryParams) s →
  ∃ before after,
    http.URL req =
      (BaseURL (self s) +:+ "/api/v1/link/list") +:+ "?" +:+
      before +:+ (k +:+ "=" +:+ v) +:+ after.
Proof.
  intros Hkv.
  rewrite ListShortLinks_sent, doRequest_sent, joinParams_concat.
  cbv zeta. simpl payload.
  destruct (NewRequest_invalid _ _); [by intros ?%elem_of_nil|].
  intros ->%list_elem_of_singleton. simpl http.URL.
  assert (Hin : (k +:+ "=" +:+ v)
                ∈ map (λ kv, kv.1 +:+ "=" +:+ kv.2) (rangeOrder queryParams)).
  { apply (list_elem_of_fmap_2 (λ kv : string * string, kv.1 +:+ "=" +:+ kv.2) _ (k, v)).
    rewrite rangeOrder_perm. by apply elem_of_map_to_list. }
  destruct (concat_contains "&" _ _ Hin) as (before & after & E).
  exists before, after. rewrite E. unfold contractURL.
  destruct (before +:+ _) as [|c q] eqn:Eq; [|reflexivity].
  apply append_empty in Eq as [_ Eq]. apply append_empty in Eq as [Eq _].
  apply append_empty in Eq as [_ Eq]. discriminate Eq.
Qed.

(** X12.  The error of a call answered outside 200..299 tells the bodies
    apart and nothing else: two such answers give the same error exactly
    when the same bytes were read from their bodies, whatever the two status
    codes are and however the reading ended. *)
Theorem X12_error_is_the_body (call : Call) (s s' : State)
    (req req' : http.Request) (resp resp' : http.Response) :
  sentBy (run call) s = [req] →
  http.Transport (Client' (self s)) (sent s) req = Ok resp →
  ¬ success (http.StatusCode resp) →
  sentBy (run call) s' = [req'] →
  http.Transport (Client' (self s')) (sent s') req' = Ok resp' →
  ¬ success (http.StatusCode resp') →
  ((run call s).1 = (run call s').1 ↔
   ioutil.delivered (http.RespBody resp) = ioutil.delivered (http.RespBody resp')).
Proof.
  assert (Hone : ∀ t r p,
            sentBy (run call) t = [r] →
            http.Transport (Client' (self t)) (sent t) r = Ok p →
            ¬ success (http.StatusCode p) →
            (run call t).1 =
              (callFailed call,
               Some (errors_New ("API error: " +:+ ioutil.delivered (http.RespBody p))))).
  { intros t r p. rewrite run_sent, run_eq. cbv zeta.
    destruct (callPayload call) as [buf|e]; [|discriminate].
    destruct (NewRequest_invalid _ _) as [e|]; [discriminate|].
    intros [= <-] -> Hbad. by destruct (decide _). }
  intros Hs Ht Hb Hs' Ht' Hb'.
  rewrite (Hone _ _ _ Hs Ht Hb), (Hone _ _ _ Hs' Ht' Hb').
  split.
  - intros [= E]. by apply append_cancel in E.
  - by intros ->.
Qed.

End Operations.

(** * The contract on concrete runs *)

Import Demo.

(** C1 at two concrete runs: [GetTag 5] answered 404 with the body of the
    example returns no record, and the message of its error is "API error: "
    followed by that body; answered 404 with a body that breaks off, it
    returns no record and the bytes read before the failure. *)
Lemma C1_witness :
  ¬ success 404 ∧
  (sentBy (run (H:=rtNotFound) (CallGetTag 5)) (start rtNotFound "secret-token")
     = [request "GET" "/api/v1/link/tag/5" ""] ∧
   noResult (run (H:=rtNotFound) (CallGetTag 5) (start rtNotFound "secret-token")).1.1
     = true ∧
   (run (H:=rtNotFound) (CallGetTag 5) (start rtNotFound "secret-token")).1.2
     = Some (errors_New ("API error: " +:+ notFoundBody))) ∧
  (sentBy (run (H:=rtBroken) (CallGetTag 5)) (start rtBroken "secret-token")
     = [request "GET" "/api/v1/link/tag/5" ""] ∧
   noResult (run (H:=rtBroken) (CallGetTag 5) (start rtBroken "secret-token")).1.1
     = true ∧
   (run (H:=rtBroken) (CallGetTag 5) (start rtBroken "secret-token")).1.2
     = Some (errors_New ("API error: " +:+ partialBody))).
Proof.
  assert (Hbad : ¬ success 404) by (unfold success; lia).
  assert (Hsent : sentBy (run (H:=rtNotFound) (CallGetTag 5))
                    (start rtNotFound "secret-token")
                  = [request "GET" "/api/v1/link/tag/5" ""]) by (vm_compute; reflexivity).
  assert (Hsent' : sentBy (run (H:=rtBroken) (CallGetTag 5))
                     (start rtBroken "secret-token")
                   = [request "GET" "/api/v1/link/tag/5" ""]) by (vm_compute; reflexivity).
  split; [exact Hbad|]. split.
  - split; [exact Hsent|].
    exact (proj2 (C1_non2xx_error (H:=rtNotFound) (B:=Nil) (R:=Nil)
                    {| http.StatusCode := 404;
                       http.RespBody := {| ioutil.delivered := notFoundBody;
                                           ioutil.readErr := None |} |} Hbad)
             (CallGetTag 5) (start rtNotFound "secret-token")
             (request "GET" "/api/v1/link/tag/5" "") Hsent eq_refl).
  - split; [exact Hsent'|].
    exact (proj2 (C1_non2xx_error (H:=rtBroken) (B:=Nil) (R:=Nil)
                    {| http.StatusCode := 404;
                       http.RespBody := {| ioutil.delivered := partialBody;
                                           ioutil.readErr := Some resetByPeer |} |} Hbad)
             (CallGetTag 5) (start rtBroken "secret-token")
             (request "GET" "/api/v1/link/tag/5" "") Hsent' eq_refl).
Defined.

(** C1 fails as stated: when the response has status 404 and the reading of
    its body breaks off after some bytes, the error of [GetTag 5] carries
    those bytes after "API error: "; it does not carry an empty body, and
    its message is not the body text alone. *)
Lemma C1_counterexample :
  DefaultTransport (Runtime:=rtBroken) [] (request "GET" "/api/v1/link/tag/5" "")
    = brokenAnswer 404 partialBody resetByPeer ∧
  (GetTag (H:=rtBroken) 5 (start rtBroken "secret-token")).1
    = (None, Some (errors_New ("API error: " +:+ partialBody))) ∧
  errors_New ("API error: " +:+ partialBody) ≠ errors_New ("API error: " +:+ "") ∧
  errors_New ("API error: " +:+ partialBody) ≠ errors_New partialBody ∧
  errors_New ("API error: " +:+ partialBody) ≠ errors_New "".
Proof.
  split; [reflexivity|]. split; [vm_compute; reflexivity|].
  repeat split; vm_compute; discriminate.
Qed.

(** C2 at a concrete run, the example of the specification: [CreateTag]
    answered 200 with the body of the example returns the record with id 1
    and tag "fall2024", and no error. *)
Lemma C2_witness :
  success 200 ∧
  sentBy (CreateTag (H:=rtTag) "fall2024") (start rtTag "secret-token")
    = [request "POST" "/api/v1/link/tag" tagPayload] ∧
  json_Decode {| ioutil.delivered := tagBody; ioutil.readErr := None |} Tag_zero
    = (mkTag 1 "fall2024" "2024-01-01" "2024-01-01", None) ∧
  (CreateTag (H:=rtTag) "fall2024" (start rtTag "secret-token")).1
    = (Some (mkTag 1 "fall2024" "2024-01-01" "2024-01-01"), None).
Proof.
  assert (Hok : success 200) by (unfold success; lia).
  assert (Hsent : sentBy (CreateTag (H:=rtTag) "fall2024") (start rtTag "secret-token")
                  = [request "POST" "/api/v1/link/tag" tagPayload])
    by (vm_compute; reflexivity).
  assert (Hdec : json_Decode {| ioutil.delivered := tagBody; ioutil.readErr := None |}
                   Tag_zero
                 = (mkTag 1 "fall2024" "2024-01-01" "2024-01-01", None))
    by (vm_compute; reflexivity).
  split; [exact Hok|]. split; [exact Hsent|]. split; [exact Hdec|].
  exact (proj1
           (proj2 (proj2 (C2_success_decodes (H:=rtTag) (B:=Nil) (R:=Nil)
                            {| http.StatusCode := 200;
                               http.RespBody := {| ioutil.delivered := tagBody;
                                                   ioutil.readErr := None |} |} Hok))
              "fall2024" (start rtTag "secret-token")
              (request "POST" "/api/v1/link/tag" tagPayload) Hsent eq_refl)
           (mkTag 1 "fall2024" "2024-01-01" "2024-01-01") Hdec).
Defined.

(** C3 at a concrete run: the request of the tag example carries the three
    headers, with the token of the client after "Bearer ". *)
Lemma C3_witness :
  request "POST" "/api/v1/link/tag" tagPayload
    ∈ sentBy (doRequest (H:=rtTag) "POST" "/api/v1/link/tag" ""
                (Some ({[ "tag" := "fall2024" ]} : gmap string string)) (Some Tag_zero))
        (start rtTag "secret-token") ∧
  size (http.Hdr (request "POST" "/api/v1/link/tag" tagPayload)) = 3%nat ∧
  http.Hdr (request "POST" "/api/v1/link/tag" tagPayload) !! "Authorization"
    = Some ["Bearer secret-token"] ∧
  http.Hdr (request "POST" "/api/v1/link/tag" tagPayload) !! "Content-Type"
    = Some ["application/json"] ∧
  http.Hdr (request "POST" "/api/v1/link/tag" tagPayload) !! "Accept"
    = Some ["application/json"].
Proof.
  assert (Hin : request "POST" "/api/v1/link/tag" tagPayload
                ∈ sentBy (doRequest (H:=rtTag) "POST" "/api/v1/link/tag" ""
                            (Some ({[ "tag" := "fall2024" ]} : gmap string string))
                            (Some Tag_zero))
                    (start rtTag "secret-token")).
  { replace (sentBy _ _) with [request "POST" "/api/v1/link/tag" tagPayload]
      by (vm_compute; reflexivity).
    apply list_elem_of_singleton. reflexivity. }
  split; [exact Hin|].
  destruct (C3_three_headers (H:=rtTag) _ _ _ _ _ _ _ Hin) as (Hn & Ha & Hc & Hacc & _).
  exact (conj Hn (conj Ha (conj Hc Hacc))).
Defined.

(** C4 at two concrete runs: with a query the URL has the question mark and
    the query, without one it ends with the path. *)
Lemma C4_witness :
  (request "GET" "/api/v1/link?short_url=https://t.ly/c55j" ""
     ∈ sentBy (doRequest (H:=rtTag) (B:=Nil) "GET" "/api/v1/link"
                 "short_url=https://t.ly/c55j" None (Some Tag_zero))
         (start rtTag "secret-token") ∧
   "short_url=https://t.ly/c55j" ≠ "" ∧
   http.URL (request "GET" "/api/v1/link?short_url=https://t.ly/c55j" "")
     = "https://api.t.ly/api/v1/link?short_url=https://t.ly/c55j") ∧
  (request "GET" "/api/v1/link/tag" ""
     ∈ sentBy (doRequest (H:=rtTag) (B:=Nil) "GET" "/api/v1/link/tag" "" None (Some Tag_zero))
         (start rtTag "secret-token") ∧
   http.URL (request "GET" "/api/v1/link/tag" "") = "https://api.t.ly/api/v1/link/tag").
Proof.
  assert (Hq : request "GET" "/api/v1/link?short_url=https://t.ly/c55j" ""
               ∈ sentBy (doRequest (H:=rtTag) (B:=Nil) "GET" "/api/v1/link"
                           "short_url=https://t.ly/c55j" None (Some Tag_zero))
                   (start rtTag "secret-token")).
  { replace (sentBy _ _) with [request "GET" "/api/v1/link?short_url=https://t.ly/c55j" ""]
      by (vm_compute; reflexivity).
    apply list_elem_of_singleton. reflexivity. }
  assert (Hn : request "GET" "/api/v1/link/tag" ""
               ∈ sentBy (doRequest (H:=rtTag) (B:=Nil) "GET" "/api/v1/link/tag" ""
                           None (Some Tag_zero))
                   (start rtTag "secret-token")).
  { replace (sentBy _ _) with [request "GET" "/api/v1/link/tag" ""]
      by (vm_compute; reflexivity).
    apply list_elem_of_singleton. reflexivity. }
  assert (Hne : "short_url=https://t.ly/c55j" ≠ "") by discriminate.
  split.
  - split; [exact Hq|]. split; [exact Hne|].
    exact (proj2 (C4_target_url (H:=rtTag) _ _ _ _ _ _ _ Hq) Hne).
  - split; [exact Hn|].
    exact (proj1 (C4_target_url (H:=rtTag) _ _ _ _ _ _ _ Hn) eq_refl).
Defined.

(** C5 at concrete runs: a successful [CreateTag] has handed over exactly
    one request, and a payload that cannot be serialized is refused with
    nothing handed over. *)
Lemma C5_witness :
  ((run (H:=rtTag) (CallCreateTag "fall2024") (start rtTag "secret-token")).1.2 = None ∧
   length (sentBy (run (H:=rtTag) (CallCreateTag "fall2024"))
             (start rtTag "secret-token")) = 1%nat) ∧
  (json_Marshal make_chan = Err (errors_New "json: unsupported type: chan int") ∧
   doRequest (H:=rtTag) "POST" "/api/v1/link/tag" "" (Some make_chan) (Some Tag_zero)
     (start rtTag "secret-token")
     = ((Some Tag_zero, Some (errors_New "json: unsupported type: chan int")),
        start rtTag "secret-token")).
Proof.
  assert (Herr : (run (H:=rtTag) (CallCreateTag "fall2024")
                    (start rtTag "secret-token")).1.2 = None)
    by (vm_compute; reflexivity).
  split.
  - split; [exact Herr|].
    exact (proj2 (proj2 (proj2 (C5_at_most_one_send (H:=rtTag) (B:=chan) (R:=Tag)))
                    (CallCreateTag "fall2024") (start rtTag "secret-token")) Herr).
  - split; [reflexivity|].
    exact (proj1 (proj1 (proj2 (C5_at_most_one_send (H:=rtTag) (B:=chan) (R:=Tag)))
                    "POST" "/api/v1/link/tag" "" make_chan (Some Tag_zero)
                    (start rtTag "secret-token")
                    (errors_New "json: unsupported type: chan int") eq_refl)).
Defined.




(** C8 at a concrete run: a short URL with a space, an ampersand, an equals
    sign and a hash sign reaches the URL of the request as it is. *)
Lemma C8_witness :
  request "GET" "/api/v1/link?short_url=https://t.ly/a b&c=d#e" ""
    ∈ sentBy (GetShortLink (H:=rtTag) reservedShortURL) (start rtTag "secret-token") ∧
  http.URL (request "GET" "/api/v1/link?short_url=https://t.ly/a b&c=d#e" "")
    = "https://api.t.ly/api/v1/link?short_url=" +:+ reservedShortURL.
Proof.
  assert (Hin : request "GET" "/api/v1/link?short_url=https://t.ly/a b&c=d#e" ""
                ∈ sentBy (GetShortLink (H:=rtTag) reservedShortURL)
                    (start rtTag "secret-token")).
  { replace (sentBy _ _)
      with [request "GET" "/api/v1/link?short_url=https://t.ly/a b&c=d#e" ""]
      by (vm_compute; reflexivity).
    apply list_elem_of_singleton. reflexivity. }
  split; [exact Hin|].
  exact (proj1 (C8_short_url_query (H:=rtTag) reservedShortURL
                  (start rtTag "secret-token")) _ Hin).
Defined.

(** C10 at two concrete runs of an operation that returns a pointer: no
    error on the answer 200, hence a record; an error on the answer 404,
    hence no record. *)
Lemma C10_witness :
  returnsPointer (CallCreateTag "fall2024") = true ∧
  ((run (H:=rtTag) (CallCreateTag "fall2024") (start rtTag "secret-token")).1.2 = None ∧
   isPointer (run (H:=rtTag) (CallCreateTag "fall2024")
                (start rtTag "secret-token")).1.1 = true) ∧
  ((run (H:=rtNotFound) (CallCreateTag "fall2024")
      (start rtNotFound "secret-token")).1.2 ≠ None ∧
   isNilPointer (run (H:=rtNotFound) (CallCreateTag "fall2024")
                   (start rtNotFound "secret-token")).1.1 = true).
Proof.
  assert (Hok : (run (H:=rtTag) (CallCreateTag "fall2024")
                   (start rtTag "secret-token")).1.2 = None)
    by (vm_compute; reflexivity).
  assert (Herr : (run (H:=rtNotFound) (CallCreateTag "fall2024")
                    (start rtNotFound "secret-token")).1.2 ≠ None)
    by (vm_compute; discriminate).
  split; [reflexivity|]. split.
  - split; [exact Hok|].
    exact (proj2 (proj1 (proj1 (C10_result_xor_error (H:=rtTag) (CallCreateTag "fall2024")
                                  (start rtTag "secret-token")) eq_refl)) Hok).
  - split; [exact Herr|].
    exact (proj2 (proj2 (proj1 (C10_result_xor_error (H:=rtNotFound)
                                  (CallCreateTag "fall2024")
                                  (start rtNotFound "secret-token")) eq_refl)) Herr).
Defined.

(** ** Further properties on concrete runs *)

(** X1 at a concrete run: [UpdatePixel] for the pixel 12345 sends a PUT
    request to the path with that id, with the serialized update as body. *)
Lemma X1_witness :
  request "PUT" "/api/v1/link/pixel/12345" pixelUpdateBody
    ∈ sentBy (run (H:=rtTag) (CallUpdatePixel pixelUpdate)) (start rtTag "secret-token") ∧
  http.Method (request "PUT" "/api/v1/link/pixel/12345" pixelUpdateBody) = "PUT" ∧
  http.URL (request "PUT" "/api/v1/link/pixel/12345" pixelUpdateBody)
    = "https://api.t.ly/api/v1/link/pixel/12345" ∧
  json_Marshal pixelUpdate
    = Ok (http.Body (request "PUT" "/api/v1/link/pixel/12345" pixelUpdateBody)) ∧
  http.Hdr (request "PUT" "/api/v1/link/pixel/12345" pixelUpdateBody)
    = contractHeader "secret-token".
Proof.
  assert (Hin : request "PUT" "/api/v1/link/pixel/12345" pixelUpdateBody
                ∈ sentBy (run (H:=rtTag) (CallUpdatePixel pixelUpdate))
                    (start rtTag "secret-token")).
  { replace (sentBy _ _) with [request "PUT" "/api/v1/link/pixel/12345" pixelUpdateBody]
      by (vm_compute; reflexivity).
    apply list_elem_of_singleton. reflexivity. }
  split; [exact Hin|].
  exact (X1_request_table (H:=rtTag) (CallUpdatePixel pixelUpdate)
           (start rtTag "secret-token") _ Hin).
Defined.

(** X2 at a concrete run: the lookup of a short URL that ends with a line
    feed is refused by [http.NewRequest]; the call returns that error and no
    link, and nothing is sent. *)
Lemma X2_witness :
  (callPayload (CallGetShortLink controlShortURL) = Ok "" ∧
   NewRequest_invalid (Runtime:=rtTag) "GET"
     ("https://api.t.ly/api/v1/link?short_url=" +:+ controlShortURL)
   = Some controlError) ∧
  run (H:=rtTag) (CallGetShortLink controlShortURL) (start rtTag "secret-token")
    = ((ShortLinkPtr None, Some controlError), start rtTag "secret-token") ∧
  sentBy (run (H:=rtTag) (CallGetShortLink controlShortURL)) (start rtTag "secret-token")
    = [].
Proof.
  assert (Hpay : callPayload (CallGetShortLink controlShortURL) = Ok "")
    by reflexivity.
  assert (Hinv : NewRequest_invalid (Runtime:=rtTag) "GET"
                   ("https://api.t.ly/api/v1/link?short_url=" +:+ controlShortURL)
                 = Some controlError) by (vm_compute; reflexivity).
  split; [exact (conj Hpay Hinv)|].
  destruct (X2_failure_before_send (H:=rtTag) (CallGetShortLink controlShortURL)
              (start rtTag "secret-token") controlError
              (or_intror (ex_intro _ "" (conj Hpay Hinv))))
    as (Hrun & _ & Hsent).
  exact (conj Hrun Hsent).
Defined.

(** X3 at a concrete run: with the service out of reach [GetPixel] returns
    the error of the transport and no pixel. *)
Lemma X3_witness :
  sentBy (run (H:=rtDown) (CallGetPixel 12345)) (start rtDown "secret-token")
    = [request "GET" "/api/v1/link/pixel/12345" ""] ∧
  (run (H:=rtDown) (CallGetPixel 12345) (start rtDown "secret-token")).1
    = (PixelPtr None, Some refused).
Proof.
  assert (Hsent : sentBy (run (H:=rtDown) (CallGetPixel 12345))
                    (start rtDown "secret-token")
                  = [request "GET" "/api/v1/link/pixel/12345" ""])
    by (vm_compute; reflexivity).
  split; [exact Hsent|].
  exact (f_equal fst
           (proj1 (X3_transport_error_verbatim (H:=rtDown) (CallGetPixel 12345)
                     (start rtDown "secret-token")
                     (request "GET" "/api/v1/link/pixel/12345" "") refused
                     Hsent eq_refl))).
Defined.

(** X4 at a concrete run: [ListTags] answered 200 with a list of one tag
    returns the slice with that tag and no error. *)
Lemma X4_witness :
  success 200 ∧
  sentBy (run (H:=rtTags) CallListTags) (start rtTags "secret-token")
    = [request "GET" "/api/v1/link/tag" ""] ∧
  (run (H:=rtTags) CallListTags (start rtTags "secret-token")).1
    = (TagSlice (Some [mkTag 1 "fall2024" "2024-01-01" "2024-01-01"]), None).
Proof.
  assert (Hok : success 200) by (unfold success; lia).
  assert (Hsent : sentBy (run (H:=rtTags) CallListTags) (start rtTags "secret-token")
                  = [request "GET" "/api/v1/link/tag" ""])
    by (vm_compute; reflexivity).
  assert (Hres : callResult CallListTags
                   {| ioutil.delivered := tagsBody; ioutil.readErr := None |}
                 = (TagSlice (Some [mkTag 1 "fall2024" "2024-01-01" "2024-01-01"]), None))
    by (vm_compute; reflexivity).
  split; [exact Hok|]. split; [exact Hsent|].
  rewrite <- Hres.
  exact (f_equal fst
           (X4_success_result (H:=rtTags) CallListTags (start rtTags "secret-token")
              (request "GET" "/api/v1/link/tag" "")
              {| http.StatusCode := 200;
                 http.RespBody := {| ioutil.delivered := tagsBody;
                                     ioutil.readErr := None |} |}
              Hsent eq_refl Hok)).
Defined.

(** X5 at a concrete run: the decoder stores the tag text and then fails on
    the id; [GetTag] returns its error and no tag. *)
Lemma X5_witness :
  json_Decode {| ioutil.delivered := badTagBody; ioutil.readErr := None |} Tag_zero
    = (mkTag 0 "fall2024" "" "", Some badTagError) ∧
  (run (H:=rtBadTag) (CallGetTag 5) (start rtBadTag "secret-token")).1.2 ≠ None ∧
  (run (H:=rtBadTag) (CallGetTag 5) (start rtBadTag "secret-token")).1.1 = TagPtr None.
Proof.
  assert (Herr : (run (H:=rtBadTag) (CallGetTag 5)
                    (start rtBadTag "secret-token")).1.2 ≠ None)
    by (vm_compute; discriminate).
  split; [vm_compute; reflexivity|]. split; [exact Herr|].
  exact (proj1 (X5_error_means_no_result (H:=rtBadTag) (CallGetTag 5)
                  (start rtBadTag "secret-token") Herr)).
Defined.


(** X8 at two concrete runs: no filter gives the bare list path, the filter
    with an empty key and an empty value gives the query "=". *)
Lemma X8_witness :
  (request "GET" "/api/v1/link/list" ""
     ∈ sentBy (ListShortLinks (H:=rtList) ∅) (start rtList "secret-token") ∧
   http.URL (request "GET" "/api/v1/link/list" "") = "https://api.t.ly/api/v1/link/list") ∧
  (request "GET" "/api/v1/link/list?=" ""
     ∈ sentBy (ListShortLinks (H:=rtList) blankFilter) (start rtList "secret-token") ∧
   blankFilter ≠ ∅ ∧
   http.URL (request "GET" "/api/v1/link/list?=" "") = "https://api.t.ly/api/v1/link/list?=").
Proof.
  assert (Hin : request "GET" "/api/v1/link/list" ""
                ∈ sentBy (ListShortLinks (H:=rtList) ∅) (start rtList "secret-token")).
  { replace (sentBy _ _) with [request "GET" "/api/v1/link/list" ""]
      by (vm_compute; reflexivity).
    apply list_elem_of_singleton. reflexivity. }
  assert (Hin' : request "GET" "/api/v1/link/list?=" ""
                 ∈ sentBy (ListShortLinks (H:=rtList) blankFilter)
                     (start rtList "secret-token")).
  { replace (sentBy _ _) with [request "GET" "/api/v1/link/list?=" ""]
      by (vm_compute; reflexivity).
    apply list_elem_of_singleton. reflexivity. }
  assert (Hne : blankFilter ≠ ∅).
  { intros E. apply (f_equal (lookup "")) in E. vm_compute in E. discriminate E. }
  split.
  - split; [exact Hin|].
    exact (proj1 (X8_list_filter (H:=rtList) ∅ (start rtList "secret-token") _ Hin)
             eq_refl).
  - split; [exact Hin'|]. split; [exact Hne|].
    exact (proj2 (proj2 (X8_list_filter (H:=rtList) blankFilter
                           (start rtList "secret-token") _ Hin') Hne)).
Defined.


(** X11 at a concrete run: with the filters search=amazon and tag_ids=1,2
    the URL of the request contains "tag_ids=1,2". *)
Lemma X11_witness :
  twoFilters !! "tag_ids" = Some "1,2" ∧
  request "GET" "/api/v1/link/list?search=amazon&tag_ids=1,2" ""
    ∈ sentBy (ListShortLinks (H:=rtList) twoFilters) (start rtList "secret-token") ∧
  ∃ before after,
    http.URL (request "GET" "/api/v1/link/list?search=amazon&tag_ids=1,2" "")
    = ("https://api.t.ly" +:+ "/api/v1/link/list") +:+ "?" +:+
      before +:+ ("tag_ids" +:+ "=" +:+ "1,2") +:+ after.
Proof.
  assert (Hkv : twoFilters !! "tag_ids" = Some "1,2") by (vm_compute; reflexivity).
  assert (Hin : request "GET" "/api/v1/link/list?search=amazon&tag_ids=1,2" ""
                ∈ sentBy (ListShortLinks (H:=rtList) twoFilters)
                    (start rtList "secret-token")).
  { replace (sentBy _ _)
      with [request "GET" "/api/v1/link/list?search=amazon&tag_ids=1,2" ""]
      by (vm_compute; reflexivity).
    apply list_elem_of_singleton. reflexivity. }
  split; [exact Hkv|]. split; [exact Hin|].
  exact (X11_every_filter_entry_sent (H:=rtList) twoFilters "tag_ids" "1,2"
           (start rtList "secret-token") _ Hkv Hin).
Defined.

(** X12 at a concrete run: [GetTag 5] returns the same error for the answer
    404 and for the answer 500 with the same body. *)
Lemma X12_witness :
  ¬ success 404 ∧ ¬ success 500 ∧
  (run (H:=rtNotFound) (CallGetTag 5) (start rtNotFound "secret-token")).1
    = (run (H:=rtNotFound) (CallGetTag 5) (start rtServerError "secret-token")).1.
Proof.
  assert (Hbad : ¬ success 404) by (unfold success; lia).
  assert (Hbad' : ¬ success 500) by (unfold success; lia).
  assert (Hsent : sentBy (run (H:=rtNotFound) (CallGetTag 5))
                    (start rtNotFound "secret-token")
                  = [request "GET" "/api/v1/link/tag/5" ""]) by (vm_compute; reflexivity).
  assert (Hsent' : sentBy (run (H:=rtNotFound) (CallGetTag 5))
                     (start rtServerError "secret-token")
                   = [request "GET" "/api/v1/link/tag/5" ""]) by (vm_compute; reflexivity).
  split; [exact Hbad|]. split; [exact Hbad'|].
  exact (proj2 (X12_error_is_the_body (H:=rtNotFound) (CallGetTag 5)
                  (start rtNotFound "secret-token") (start rtServerError "secret-token")
                  (request "GET" "/api/v1/link/tag/5" "")
                  (request "GET" "/api/v1/link/tag/5" "")
                  {| http.StatusCode := 404;
                     http.RespBody := {| ioutil.delivered := notFoundBody;
                                         ioutil.readErr := None |} |}
                  {| http.StatusCode := 500;
                     http.RespBody := {| ioutil.delivered := notFoundBody;
                                         ioutil.readErr := None |} |}
                  Hsent eq_refl Hbad Hsent' eq_refl Hbad') eq_refl).
Defined.
